(** * Quizify: the quiz-generation loop of [Generate_Question.py]

    A shallow embedding of [QuizGenerator] ([__init__],
    [generate_question_with_vectorstore], [generate_quiz],
    [validate_question]) together with the fragment of Python's dynamic
    values that these methods touch, and the properties of the control loop.

    The retrieval chain, the language model and the text decoder of Python's
    [json] module are collaborators outside the file: the chain is an oracle
    indexed by the invocation number, the decoder a function from text to an
    optional value. *)

From Stdlib Require Import ZArith List String Ascii Bool Lia.
Import ListNotations.

Local Open Scope string_scope.
Local Open Scope Z_scope.

(** ** Python values

    What [JsonOutputParser] and [json.loads] can hand back: [None], booleans,
    integers, text, lists and dictionaries with text keys.  A dictionary is
    the list of its items in insertion order; its keys are pairwise distinct
    in every dictionary Python builds.  Numbers with a fractional part are
    outside this model. *)

#[local] Set Warnings "-register-all".

Inductive pyval : Type :=
| PNone
| PBool (b : bool)
| PInt (z : Z)
| PStr (s : string)
| PList (l : list pyval)
| PDict (d : list (string * pyval)).

(** The exceptions that can travel through the generator. *)
Inductive exn : Type :=
| ValueError
| TypeError
| KeyError
| JSONDecodeError
| OutputParserException
| ExternalError (what : string).

Inductive result (A : Type) : Type :=
| Ok (a : A)
| Raise (e : exn).

Arguments Ok {A} a.
Arguments Raise {A} e.

Definition bind {A B : Type} (m : result A) (k : A -> result B) : result B :=
  match m with
  | Ok a => k a
  | Raise e => Raise e
  end.

Notation "x <- m ;; k" := (bind m (fun x => k))
  (at level 61, m at next level, right associativity).

Module Py.

(** [d.get(k)] on the item list. *)
Fixpoint dict_get (k : string) (d : list (string * pyval)) : option pyval :=
  match d with
  | [] => None
  | (k', v) :: r => if String.eqb k k' then Some v else dict_get k r
  end.

(** [d[k] = v]: overwrite in place, or add at the end. *)
Fixpoint dict_set (k : string) (v : pyval) (d : list (string * pyval))
  : list (string * pyval) :=
  match d with
  | [] => [(k, v)]
  | (k', v') :: r =>
      if String.eqb k k' then (k', v) :: r else (k', v') :: dict_set k v r
  end.

(** [bool(v)]. *)
Definition truthy (v : pyval) : bool :=
  match v with
  | PNone => false
  | PBool b => b
  | PInt z => negb (z =? 0)
  | PStr s => negb (String.eqb s EmptyString)
  | PList l => match l with [] => false | _ :: _ => true end
  | PDict d => match d with [] => false | _ :: _ => true end
  end.

(** [a == b]: numbers (booleans included) by value, text by characters,
    lists item by item, dictionaries by size and then key by key. *)
Fixpoint eq (a b : pyval) {struct a} : bool :=
  match a, b with
  | PNone, PNone => true
  | PBool x, PBool y => Bool.eqb x y
  | PBool x, PInt y => (if x then 1 else 0) =? y
  | PInt x, PBool y => x =? (if y then 1 else 0)
  | PInt x, PInt y => x =? y
  | PStr x, PStr y => String.eqb x y
  | PList xs, PList ys =>
      (fix items (xs ys : list pyval) {struct xs} : bool :=
         match xs, ys with
         | [], [] => true
         | x :: xs', y :: ys' => eq x y && items xs' ys'
         | _, _ => false
         end) xs ys
  | PDict d, PDict d' =>
      Nat.eqb (List.length d) (List.length d') &&
      (fix entries (d : list (string * pyval)) {struct d} : bool :=
         match d with
         | [] => true
         | (k, v) :: r =>
             match dict_get k d' with
             | Some v' => eq v v'
             | None => false
             end && entries r
         end) d
  | _, _ => false
  end.

(** [s in t] for text: [s] occurs in [t]. *)
Definition str_contains (s t : string) : bool :=
  match String.index 0 s t with
  | Some _ => true
  | None => false
  end.

(** [PStr k in c]. *)
Definition contains (k : string) (c : pyval) : result bool :=
  match c with
  | PDict d =>
      Ok (match dict_get k d with Some _ => true | None => false end)
  | PStr t => Ok (str_contains k t)
  | PList l => Ok (existsb (fun x => eq x (PStr k)) l)
  | PNone | PBool _ | PInt _ => Raise TypeError
  end.

(** [c[PStr k]]. *)
Definition getitem (c : pyval) (k : string) : result pyval :=
  match c with
  | PDict d =>
      match dict_get k d with
      | Some v => Ok v
      | None => Raise KeyError
      end
  | _ => Raise TypeError
  end.

(** [a + b]. *)
Definition add (a b : pyval) : result pyval :=
  match a, b with
  | PStr x, PStr y => Ok (PStr (x ++ y))
  | PList x, PList y => Ok (PList (x ++ y))
  | (PInt _ | PBool _), (PInt _ | PBool _) =>
      let num v := match v with
                   | PInt z => z
                   | PBool true => 1
                   | _ => 0
                   end in
      Ok (PInt (num a + num b))
  | _, _ => Raise TypeError
  end.

(** [range(n)]. *)
Definition range (n : Z) : list Z :=
  map Z.of_nat (seq 0 (Z.to_nat n)).

End Py.

(** ** The generator object *)

(** An opaque handle on the external context source. *)
Definition handle : Type := nat.

Module QuizGenerator.

(** The attributes of an instance.  [vectorstore] is [None] or a handle;
    [llm] records whether the language-model client has been created;
    [parser] and [system_template] are constants and carry no state. *)
Record t : Type := mk {
  topic : pyval;
  num_questions : Z;
  vectorstore : option handle;
  llm : bool;
  question_bank : list pyval
}.

(** An instance at work: the object and the number of chain invocations
    made so far. *)
Record state : Type := mkState {
  self : t;
  invocations : nat
}.

Definition set_llm (b : bool) (g : t) : t :=
  mk (topic g) (num_questions g) (vectorstore g) b (question_bank g).

Definition set_question_bank (qb : list pyval) (g : t) : t :=
  mk (topic g) (num_questions g) (vectorstore g) (llm g) qb.

(** [__init__(self, topic=None, num_questions=1, vectorstore=None)]. *)
Definition __init__ (topic : pyval) (num_questions : Z)
    (vectorstore : option handle) : result t :=
  let topic' :=
    if negb (Py.truthy topic) then PStr "General Knowledge" else topic in
  if num_questions >? 10 then Raise ValueError
  else Ok (mk topic' num_questions vectorstore false []).

(** [init_llm]: creates the client. *)
Definition init_llm (g : t) : t := set_llm true g.

Section Collaborators.

(** [chain_invoke h topic k]: what [chain.invoke(topic)] does on the
    invocation number [k] of a run over the context source [h]: the value
    the output parser returns, or the exception it or the model raises. *)
Variable chain_invoke : handle -> pyval -> nat -> result pyval.

(** [json.loads] on text: the decoded value, or [None] where it raises
    [JSONDecodeError]. *)
Variable json_loads_text : string -> option pyval.

(** [json.loads(x)]: anything but text is a [TypeError]. *)
Definition json_loads (x : pyval) : result pyval :=
  match x with
  | PStr s =>
      match json_loads_text s with
      | Some v => Ok v
      | None => Raise JSONDecodeError
      end
  | _ => Raise TypeError
  end.

Definition generate_question_with_vectorstore (st : state)
  : result (pyval * state) :=
  let g := if negb (llm (self st)) then init_llm (self st) else self st in
  match vectorstore g with
  | None => Raise ValueError
  | Some retriever =>
      response <- chain_invoke retriever (topic g) (invocations st) ;;
      Ok (response, mkState g (S (invocations st)))
  end.

(** The scan of [validate_question]: [true] when the loop ends without
    a match, [false] at the first match. *)
Fixpoint scan_question_bank (bank : list pyval) (question : pyval)
  : result bool :=
  match bank with
  | [] => Ok true
  | question_iterated :: rest =>
      a <- Py.getitem question_iterated "question" ;;
      b <- Py.getitem question "question" ;;
      if Py.eq a b then Ok false else scan_question_bank rest question
  end.

Definition validate_question (g : t) (question : pyval) : result bool :=
  present <- Py.contains "question" question ;;
  if negb present then Raise ValueError
  else
    text <- Py.getitem question "question" ;;
    if negb (Py.truthy text) then Raise ValueError
    else scan_question_bank (question_bank g) question.

(** [self.question_bank.append(question)]. *)
Definition append (question : pyval) (st : state) : state :=
  mkState (set_question_bank (question_bank (self st) ++ [question])
             (self st))
          (invocations st).

(** The retry sub-loop [for i in range(3)], over the values of [i] still
    to come.  [continue] goes on with the rest, [break] ends the loop.  What
    [print] writes is not kept; the argument of the last [print] is
    evaluated, as the sum of a text and [i + 1]. *)
Fixpoint retry (attempts : list Z) (st : state) : result state :=
  match attempts with
  | [] => Ok st
  | i :: rest =>
      r <- generate_question_with_vectorstore st ;;
      let '(question_str, st1) := r in
      match json_loads question_str with
      | Raise JSONDecodeError => retry rest st1
      | Raise e => Raise e
      | Ok question =>
          unique <- validate_question (self st1) question ;;
          if unique then Ok (append question st1)
          else
            _ <- Py.add
                   (PStr "Duplicate or invalid question detected - Attempt ")
                   (PInt (i + 1)) ;;
            retry rest st1
      end
  end.

(** One iteration of the outer loop: one slot of the quiz. *)
Definition slot (st : state) : result state :=
  r <- generate_question_with_vectorstore st ;;
  let '(question, st1) := r in
  unique <- validate_question (self st1) question ;;
  if unique then Ok (append question st1)
  else retry (Py.range 3) st1.

(** The outer loop [for _ in range(self.num_questions)]. *)
Fixpoint slots (iterations : list Z) (st : state) : result state :=
  match iterations with
  | [] => Ok st
  | _ :: rest => st1 <- slot st ;; slots rest st1
  end.

(** [generate_quiz]: the returned list and the instance afterwards. *)
Definition generate_quiz (st : state) : result (list pyval * state) :=
  let st0 := mkState (set_question_bank [] (self st)) (invocations st) in
  st1 <- slots (Py.range (num_questions (self st0))) st0 ;;
  Ok (question_bank (self st1), st1).

End Collaborators.

End QuizGenerator.

(** ** A decoder for examples

    A reader for the fragment of JSON without fractional numbers and without
    [\u] escapes, used to run the generator on concrete replies.  Every
    general statement below is made for an arbitrary decoder. *)

Module Json.

Definition quote : ascii := "034"%char.
Definition backslash : ascii := "092"%char.

Definition is_ws (c : ascii) : bool :=
  let n := nat_of_ascii c in
  (Nat.eqb n 32 || Nat.eqb n 9 || Nat.eqb n 10 || Nat.eqb n 13)%bool.

Definition digit (c : ascii) : option Z :=
  let n := nat_of_ascii c in
  if (Nat.leb 48 n && Nat.leb n 57)%bool then Some (Z.of_nat (n - 48))
  else None.

Fixpoint skip_ws (s : string) : string :=
  match s with
  | String c r => if is_ws c then skip_ws r else s
  | EmptyString => s
  end.

Definition unescape (c : ascii) : option ascii :=
  if Ascii.eqb c quote then Some quote
  else if Ascii.eqb c backslash then Some backslash
  else if Ascii.eqb c "/" then Some "/"%char
  else if Ascii.eqb c "n" then Some "010"%char
  else if Ascii.eqb c "t" then Some "009"%char
  else if Ascii.eqb c "r" then Some "013"%char
  else if Ascii.eqb c "b" then Some "008"%char
  else if Ascii.eqb c "f" then Some "012"%char
  else None.

(** The characters of a text literal after its opening quote, and what
    follows the closing quote. *)
Fixpoint text_body (s : string) : option (string * string) :=
  match s with
  | EmptyString => None
  | String c r =>
      if Ascii.eqb c quote then Some (EmptyString, r)
      else if Ascii.eqb c backslash then
        match r with
        | String e r' =>
            match unescape e, text_body r' with
            | Some ch, Some (t, rest) => Some (String ch t, rest)
            | _, _ => None
            end
        | EmptyString => None
        end
      else if Nat.ltb (nat_of_ascii c) 32 then None
      else
        match text_body r with
        | Some (t, rest) => Some (String c t, rest)
        | None => None
        end
  end.

Fixpoint digits (acc : Z) (s : string) : Z * string :=
  match s with
  | String c r =>
      match digit c with
      | Some d => digits (10 * acc + d) r
      | None => (acc, s)
      end
  | EmptyString => (acc, s)
  end.

(** An integer literal: no leading zero, no fraction, no exponent. *)
Definition natural (s : string) : option (Z * string) :=
  match s with
  | String c r =>
      match digit c with
      | Some d =>
          let '(n, rest) := if d =? 0 then (0, r) else digits d r in
          match rest with
          | String c' _ =>
              if (Ascii.eqb c' "." || Ascii.eqb c' "e" || Ascii.eqb c' "E")%bool
              then None else Some (n, rest)
          | EmptyString => Some (n, rest)
          end
      | None => None
      end
  | EmptyString => None
  end.

Definition literal (word : string) (v : pyval) (s : string)
  : option (pyval * string) :=
  if String.prefix word s
  then Some (v, String.substring (String.length word)
                  (String.length s - String.length word) s)
  else None.

Fixpoint value (fuel : nat) (s : string) : option (pyval * string) :=
  match fuel with
  | O => None
  | S fuel' =>
      match skip_ws s with
      | EmptyString => None
      | String c r =>
          if Ascii.eqb c quote then
            match text_body r with
            | Some (t, rest) => Some (PStr t, rest)
            | None => None
            end
          else if Ascii.eqb c "[" then
            match skip_ws r with
            | String "]" rest => Some (PList [], rest)
            | _ => elements fuel' [] r
            end
          else if Ascii.eqb c "{" then
            match skip_ws r with
            | String "}" rest => Some (PDict [], rest)
            | _ => members fuel' [] r
            end
          else if Ascii.eqb c "-" then
            match natural r with
            | Some (n, rest) => Some (PInt (- n), rest)
            | None => None
            end
          else if Ascii.eqb c "t" then literal "true" (PBool true) (String c r)
          else if Ascii.eqb c "f" then literal "false" (PBool false) (String c r)
          else if Ascii.eqb c "n" then literal "null" PNone (String c r)
          else
            match natural (String c r) with
            | Some (n, rest) => Some (PInt n, rest)
            | None => None
            end
      end
  end
with elements (fuel : nat) (acc : list pyval) (s : string)
  : option (pyval * string) :=
  match fuel with
  | O => None
  | S fuel' =>
      match value fuel' s with
      | Some (v, rest) =>
          match skip_ws rest with
          | String "," rest' => elements fuel' (acc ++ [v]) rest'
          | String "]" rest' => Some (PList (acc ++ [v]), rest')
          | _ => None
          end
      | None => None
      end
  end
with members (fuel : nat) (acc : list (string * pyval)) (s : string)
  : option (pyval * string) :=
  match fuel with
  | O => None
  | S fuel' =>
      match skip_ws s with
      | String c r =>
          if Ascii.eqb c quote then
            match text_body r with
            | Some (k, rest) =>
                match skip_ws rest with
                | String ":" rest' =>
                    match value fuel' rest' with
                    | Some (v, rest'') =>
                        match skip_ws rest'' with
                        | String "," more =>
                            members fuel' (Py.dict_set k v acc) more
                        | String "}" more =>
                            Some (PDict (Py.dict_set k v acc), more)
                        | _ => None
                        end
                    | None => None
                    end
                | _ => None
                end
            | None => None
            end
          else None
      | EmptyString => None
      end
  end.

(** The whole text is one value, white space around it allowed. *)
Definition loads_text (s : string) : option pyval :=
  match value (S (S (String.length s))) s with
  | Some (v, rest) =>
      match skip_ws rest with
      | EmptyString => Some v
      | String _ _ => None
      end
  | None => None
  end.

(** [json.dumps] for a flat object of text fields, enough to write the
    replies of the examples. *)
Definition q (s : string) : string :=
  (String quote s ++ String quote EmptyString)%string.

Definition object1 (k v : string) : string :=
  ("{" ++ q k ++ ": " ++ q v ++ "}")%string.

End Json.

(** ** The declared shape of a question *)

Module Schema.

(** [class Choice(BaseModel)]. *)
Record Choice : Type := mkChoice {
  key : string;
  value : string
}.

(** [class QuestionSchema(BaseModel)]: four typed fields; the class puts
    no constraint on how many choices there are, on their keys, or on the
    answer. *)
Record QuestionSchema : Type := mkQuestion {
  question : string;
  choices : list Choice;
  answer : string;
  explanation : string
}.

(** The dictionary a [QuestionSchema] stands for. *)
Definition dump_choice (c : Choice) : pyval :=
  PDict [("key", PStr (key c)); ("value", PStr (value c))].

Definition items (x : QuestionSchema) : list (string * pyval) :=
  [("question", PStr (question x));
   ("choices", PList (map dump_choice (choices x)));
   ("answer", PStr (answer x));
   ("explanation", PStr (explanation x))].

Definition dump (x : QuestionSchema) : pyval := PDict (items x).

Definition choice_key (c : pyval) : option string :=
  match c with
  | PDict d =>
      match Py.dict_get "key" d with
      | Some (PStr k) => Some k
      | _ => None
      end
  | _ => None
  end.

Definition has_key (k : string) (c : pyval) : bool :=
  match choice_key c with
  | Some k' => String.eqb k k'
  | None => false
  end.

Definition letters : list string := ["A"; "B"; "C"; "D"].

(** The Question invariants as the specification words them: exactly four
    choices whose keys are exactly A, B, C and D; an answer among A to D that
    is the key of one of the choices; a question text that is not empty. *)
Definition spec_question_invariants (e : pyval) : bool :=
  match e with
  | PDict d =>
      match Py.dict_get "question" d, Py.dict_get "choices" d,
            Py.dict_get "answer" d with
      | Some (PStr text), Some (PList cs), Some (PStr a) =>
          (Nat.eqb (List.length cs) 4
           && forallb (fun k => existsb (has_key k) cs) letters
           && forallb (fun c => existsb (fun k => has_key k c) letters) cs
           && existsb (String.eqb a) letters
           && existsb (has_key a) cs
           && negb (String.eqb text EmptyString))%bool
      | _, _, _ => false
      end
  | _ => false
  end.

End Schema.

(** ** What the loop maintains *)

(** The value under ["question"] of a bank entry. *)
Definition question_text (e : pyval) : option pyval :=
  match e with
  | PDict d => Py.dict_get "question" d
  | _ => None
  end.

(** The entry is a dictionary with a ["question"] item that is not empty. *)
Definition has_question (e : pyval) : bool :=
  match question_text e with
  | Some v => Py.truthy v
  | None => false
  end.

(** The entry [e] and the candidate [q] both carry a question, and [==]
    tells the two apart. *)
Definition differs (e q : pyval) : Prop :=
  exists a b, question_text e = Some a /\ question_text q = Some b /\
              Py.eq a b = false.

(** What [validate_question] has established when it answers [True]. *)
Definition fresh (bank : list pyval) (q : pyval) : Prop :=
  has_question q = true /\ Forall (fun e => differs e q) bank.

(** A bank grown from nothing by appending fresh candidates. *)
Inductive deduplicated : list pyval -> Prop :=
| dedup_nil : deduplicated []
| dedup_snoc bank q :
    deduplicated bank -> fresh bank q -> deduplicated (bank ++ [q]).

(** [added] was appended to [bank] one fresh candidate at a time. *)
Fixpoint accepted (bank added : list pyval) : Prop :=
  match added with
  | [] => True
  | q :: rest => fresh bank q /\ accepted (bank ++ [q]) rest
  end.

(** [st] with another list in place of its question bank. *)
Definition with_bank (qb : list pyval) (st : QuizGenerator.state)
  : QuizGenerator.state :=
  QuizGenerator.mkState
    (QuizGenerator.set_question_bank qb (QuizGenerator.self st))
    (QuizGenerator.invocations st).

Definition bank_of (st : QuizGenerator.state) : list pyval :=
  QuizGenerator.question_bank (QuizGenerator.self st).

(** The entry carries a question that [==] identifies with [v]. *)
Definition same_question (v : pyval) (e : pyval) : bool :=
  match question_text e with
  | Some a => Py.eq a v
  | None => false
  end.

(** From [st] to [st'] the bank gained [added], at most [most] fresh
    candidates put at its end, and the chain was invoked between [lo] and
    [hi] times. *)
Definition grew (most lo hi : nat) (st st' : QuizGenerator.state) : Prop :=
  exists added,
    bank_of st' = (bank_of st ++ added)%list
    /\ accepted (bank_of st) added
    /\ (List.length added <= most)%nat
    /\ (QuizGenerator.invocations st + lo <= QuizGenerator.invocations st')%nat
    /\ (QuizGenerator.invocations st' <= QuizGenerator.invocations st + hi)%nat.

(** ** Sample runs *)

Module Sample.

Definition paris : Schema.QuestionSchema :=
  Schema.mkQuestion "What is the capital of France?"
    [Schema.mkChoice "A" "Berlin"; Schema.mkChoice "B" "Madrid";
     Schema.mkChoice "C" "Paris"; Schema.mkChoice "D" "Rome"]
    "C" "Paris is the capital of France.".

Definition madrid : Schema.QuestionSchema :=
  Schema.mkQuestion "What is the capital of Spain?"
    [Schema.mkChoice "A" "Lisbon"; Schema.mkChoice "B" "Madrid";
     Schema.mkChoice "C" "Seville"; Schema.mkChoice "D" "Porto"]
    "B" "Madrid is the capital of Spain.".

(** Well typed for [QuestionSchema], and neither four choices nor an
    answer among them. *)
Definition lopsided : Schema.QuestionSchema :=
  Schema.mkQuestion "Which of these is a prime number?"
    [Schema.mkChoice "A" "Nine"] "Z" "None of them.".

Definition garbage : pyval := PStr "Sure! Here is your question:".

Definition q2_text : pyval :=
  PStr (Json.object1 "question" "What is the capital of Spain?").

Definition paris_text : pyval :=
  PStr (Json.object1 "question" "What is the capital of France?").

(** The chain replies with the items of [replies] in turn, and with [last]
    from then on; topic and context source play no part. *)
Definition scripted (replies : list (result pyval)) (last : result pyval)
  : handle -> pyval -> nat -> result pyval :=
  fun _ _ k => nth k replies last.

(** The model repeats itself on every call. *)
Definition always_paris : handle -> pyval -> nat -> result pyval :=
  scripted [] (Ok (Schema.dump paris)).

(** The same question on the first two calls, another one from the third
    call on. *)
Definition distinct_third : handle -> pyval -> nat -> result pyval :=
  scripted [Ok (Schema.dump paris); Ok (Schema.dump paris)]
    (Ok (Schema.dump madrid)).

(** Two equal replies, then a reply the output parser cannot read. *)
Definition unreadable_third : handle -> pyval -> nat -> result pyval :=
  scripted [Ok (Schema.dump paris); Ok (Schema.dump paris)]
    (Raise OutputParserException).

(** Equal replies for two slots, the retry answered with the same question
    as text. *)
Definition repeated_as_text : handle -> pyval -> nat -> result pyval :=
  scripted [Ok (Schema.dump paris); Ok (Schema.dump paris)] (Ok paris_text).

(** A run that fills slot 1 at once, slot 2 on its second retry, and
    gives up on slot 3. *)
Definition mixed : handle -> pyval -> nat -> result pyval :=
  scripted [Ok (Schema.dump paris); Ok (Schema.dump paris); Ok garbage;
            Ok q2_text; Ok (Schema.dump paris)] (Ok garbage).

Definition only_lopsided : handle -> pyval -> nat -> result pyval :=
  scripted [] (Ok (Schema.dump lopsided)).

(** An instance in the middle of a run, one question accepted. *)
Definition holding_paris : QuizGenerator.t :=
  QuizGenerator.mk (PStr "X") 2 (Some 0%nat) true [Schema.dump paris].

(** A freshly built instance for [topic] and [n] over context source 0;
    an instance with an empty configuration where [__init__] refuses. *)
Definition fresh_instance (topic : string) (n : Z) : QuizGenerator.state :=
  match QuizGenerator.__init__ (PStr topic) n (Some 0%nat) with
  | Ok g => QuizGenerator.mkState g 0
  | Raise _ => QuizGenerator.mkState (QuizGenerator.mk PNone 0 None false []) 0
  end.

(** The first reply is one the output parser cannot read. *)
Definition unreadable_first : handle -> pyval -> nat -> result pyval :=
  scripted [] (Raise OutputParserException).

(** What [json.loads] makes of [q2_text]. *)
Definition q2 : pyval :=
  PDict [("question", PStr "What is the capital of Spain?")].

(** Where the run over [mixed] with three slots ends. *)
Definition mixed_bank : list pyval := [Schema.dump paris; q2].

Definition mixed_final : QuizGenerator.state :=
  QuizGenerator.mkState
    (QuizGenerator.mk (PStr "X") 3 (Some 0%nat) true mixed_bank) 8.

(** The list a call hands back, when it hands one back. *)
Definition returned (r : result (list pyval * QuizGenerator.state))
  : option (list pyval) :=
  match r with
  | Ok (bank, _) => Some bank
  | Raise _ => None
  end.

End Sample.

(** ** The script under [if __name__ == "__main__"]

    What happens once the form is submitted: the generator is built from the
    text input, the slider value and the collection creator, the quiz is
    generated, and its first question is picked.  The Streamlit calls around
    these three statements and the ingestion of documents are left out. *)

Module Script.

(** Where the script stops: an exception of the generator, or the
    [IndexError] of [question_bank[0]]. *)
Inductive failure : Type :=
| Raised (e : exn)
| IndexError.

Inductive outcome (A : Type) : Type :=
| Done (a : A)
| Failed (f : failure).

Arguments Done {A} a.
Arguments Failed {A} f.

(** [question_bank[0]]. *)
Definition first_item (question_bank : list pyval) : outcome pyval :=
  match question_bank with
  | question :: _ => Done question
  | [] => Failed IndexError
  end.

(** The statements under [if submitted:], from the construction on: the
    values of [question] and [question_bank] they leave. *)
Definition submitted
    (chain_invoke : handle -> pyval -> nat -> result pyval)
    (json_loads_text : string -> option pyval)
    (topic_input : pyval) (questions : Z) (chroma_creator : handle)
  : outcome (pyval * list pyval) :=
  match QuizGenerator.__init__ topic_input questions (Some chroma_creator) with
  | Raise e => Failed (Raised e)
  | Ok generator =>
      match QuizGenerator.generate_quiz chain_invoke json_loads_text
              (QuizGenerator.mkState generator 0) with
      | Raise e => Failed (Raised e)
      | Ok (question_bank, _) =>
          match first_item question_bank with
          | Done question => Done (question, question_bank)
          | Failed f => Failed f
          end
      end
  end.

End Script.

(** ** More runs *)

(** Topic, question count and context source are the same in both. *)
Definition same_config (g g' : QuizGenerator.t) : Prop :=
  QuizGenerator.topic g' = QuizGenerator.topic g
  /\ QuizGenerator.num_questions g' = QuizGenerator.num_questions g
  /\ QuizGenerator.vectorstore g' = QuizGenerator.vectorstore g.

(** What every step of a run keeps: the configuration; and a client, once
    created, stays. *)
Definition kept (st st' : QuizGenerator.state) : Prop :=
  same_config (QuizGenerator.self st) (QuizGenerator.self st')
  /\ (QuizGenerator.llm (QuizGenerator.self st) = true ->
      QuizGenerator.llm (QuizGenerator.self st') = true).

(** The state after the first candidate [v] of a slot was accepted. *)
Definition filled (v : pyval) (st : QuizGenerator.state)
  : QuizGenerator.state :=
  QuizGenerator.append v
    (QuizGenerator.mkState
       (QuizGenerator.set_llm true (QuizGenerator.self st))
       (S (QuizGenerator.invocations st))).

(** [vs] are the replies of the chain, one after the other, from invocation
    [k] on. *)
Definition replies
    (chain_invoke : handle -> pyval -> nat -> result pyval)
    (h : handle) (topic : pyval) (k : nat) (vs : list pyval) : Prop :=
  forall i v, nth_error vs i = Some v ->
              chain_invoke h topic (k + i)%nat = Ok v.

(** The entry [e] was obtained from the chain on invocation [k] over [h]
    for [topic]: it is the reply itself, or what the decoder makes of a reply
    that is text. *)
Definition from_chain
    (chain_invoke : handle -> pyval -> nat -> result pyval)
    (json_loads_text : string -> option pyval)
    (h : handle) (topic : pyval) (k : nat) (e : pyval) : Prop :=
  chain_invoke h topic k = Ok e
  \/ exists s, chain_invoke h topic k = Ok (PStr s)
                /\ json_loads_text s = Some e.

(** An exception of the generator's own making, or one the chain raised
    for the instance's topic over its context source. *)
Definition raised_by
    (chain_invoke : handle -> pyval -> nat -> result pyval)
    (g : QuizGenerator.t) (e : exn) : Prop :=
  e = ValueError \/ e = TypeError
  \/ exists h k, QuizGenerator.vectorstore g = Some h
                 /\ chain_invoke h (QuizGenerator.topic g) k = Raise e.

(** Every entry of [added] was obtained from the chain on an invocation
    from [lo] up to, not including, [hi], for the topic and over the context
    source of [g]. *)
Definition sourced
    (chain_invoke : handle -> pyval -> nat -> result pyval)
    (json_loads_text : string -> option pyval)
    (g : QuizGenerator.t) (lo hi : nat) (added : list pyval) : Prop :=
  Forall (fun e => exists h k,
              QuizGenerator.vectorstore g = Some h
              /\ (lo <= k < hi)%nat
              /\ from_chain chain_invoke json_loads_text h
                   (QuizGenerator.topic g) k e) added.

(** The two chains reply alike for the topic and over the context source
    of [st], from its invocation count on. *)
Definition alike
    (chain1 chain2 : handle -> pyval -> nat -> result pyval)
    (st : QuizGenerator.state) : Prop :=
  forall h k,
    QuizGenerator.vectorstore (QuizGenerator.self st) = Some h ->
    (QuizGenerator.invocations st <= k)%nat ->
    chain1 h (QuizGenerator.topic (QuizGenerator.self st)) k
    = chain2 h (QuizGenerator.topic (QuizGenerator.self st)) k.

Module Runs.

(** An instance built without a context source. *)
Definition no_source : QuizGenerator.state :=
  QuizGenerator.mkState
    (QuizGenerator.mk (PStr "X") 2 None false []) 0.

(** Two different questions, then the second one again and again. *)
Definition two_distinct : handle -> pyval -> nat -> result pyval :=
  Sample.scripted [Ok (Schema.dump Sample.paris)]
    (Ok (Schema.dump Sample.madrid)).

(** The question of [Sample.paris] with other choices and another answer. *)
Definition paris_again : list (string * pyval) :=
  [("question", PStr "What is the capital of France?");
   ("choices", PList []);
   ("answer", PStr "A")].

(** One question, the same again, then three replies that are no JSON. *)
Definition gives_up : handle -> pyval -> nat -> result pyval :=
  Sample.scripted [Ok (Schema.dump Sample.paris); Ok (Schema.dump Sample.paris)]
    (Ok Sample.garbage).

(** A chain that answers like [Sample.mixed] for the topic ["X"] over
    source 0 and fails everywhere else. *)
Definition mixed_for_x : handle -> pyval -> nat -> result pyval :=
  fun h topic k =>
    if (Nat.eqb h 0 && Py.eq topic (PStr "X"))%bool then Sample.mixed h topic k
    else Raise (ExternalError "quota").

End Runs.

(** ** Properties *)

(** Splits a hypothesis [(x <- m ;; k) = Ok _] on the outcome of [m]. *)
Ltac bind_inv H :=
  match type of H with
  | bind ?m _ = Ok _ =>
      let E := fresh "E" in
      destruct m eqn:E; cbn [bind] in H; [ | discriminate H ]
  end.

Lemma bind_Ok {A B : Type} (m : result A) (k : A -> result B) (b : B) :
  bind m k = Ok b -> exists a, m = Ok a /\ k a = Ok b.
Proof.
  destruct m as [a | e]; cbn; [ eauto | discriminate ].
Qed.

Section Constructor.

Import QuizGenerator.

Lemma init_within_limit topic n vs :
  n <= 10 ->
  __init__ topic n vs =
    Ok (mk (if negb (Py.truthy topic) then PStr "General Knowledge"
            else topic) n vs false []).
Proof.
  intros Hn. unfold __init__.
  destruct (n >? 10) eqn:E; [ | reflexivity ].
  apply Z.gtb_lt in E. lia.
Qed.

(** C6.  A constructor call with [num_questions] above 10 raises
    [ValueError]: it yields no instance at all, so nothing can be
    generated with it. *)
Theorem init_above_ten_raises topic n vs :
  n > 10 -> __init__ topic n vs = Raise ValueError.
Proof.
  intros Hn. unfold __init__.
  destruct (n >? 10) eqn:E; [ reflexivity | ].
  rewrite Z.gtb_ltb in E. apply Z.ltb_ge in E. lia.
Qed.

Lemma init_above_ten_raises_witness :
  11 > 10 /\ __init__ (PStr "Photosynthesis") 11 (Some 0%nat) = Raise ValueError.
Proof.
  split; [ lia | apply init_above_ten_raises; lia ].
Defined.

(** C8.  Whenever the constructor succeeds, the configured topic is
    ["General Knowledge"] for a falsy [topic] ([None] and the empty text
    among them) and the given text itself for a text that is not empty. *)
Theorem init_topic_default topic n vs g :
  __init__ topic n vs = Ok g ->
  (Py.truthy topic = false -> QuizGenerator.topic g = PStr "General Knowledge")
  /\ (topic = PNone -> QuizGenerator.topic g = PStr "General Knowledge")
  /\ (topic = PStr EmptyString ->
      QuizGenerator.topic g = PStr "General Knowledge")
  /\ (forall s, topic = PStr s -> s <> EmptyString ->
                QuizGenerator.topic g = PStr s).
Proof.
  unfold __init__. destruct (n >? 10); [ discriminate | ].
  intros H. injection H as <-. cbn [QuizGenerator.topic].
  repeat split.
  - intros ->. reflexivity.
  - intros ->. reflexivity.
  - intros ->. reflexivity.
  - intros s -> Hs. cbn [Py.truthy].
    destruct (String.eqb_spec s EmptyString); [ contradiction | reflexivity ].
Qed.

Lemma init_topic_default_witness :
  exists g, __init__ PNone 3 (Some 0%nat) = Ok g /\
            QuizGenerator.topic g = PStr "General Knowledge".
Proof.
  eexists. split; [ reflexivity | ].
  exact (proj1 (init_topic_default PNone 3 (Some 0%nat) _ eq_refl) eq_refl).
Defined.

End Constructor.

Section Validation.

Import QuizGenerator.

Lemma getitem_question_Ok e a :
  Py.getitem e "question" = Ok a <-> question_text e = Some a.
Proof.
  destruct e; cbn; try (split; discriminate).
  destruct (Py.dict_get "question" d); split; congruence.
Qed.

Lemma eq_text a s : Py.eq a (PStr s) = true <-> a = PStr s.
Proof.
  destruct a; cbn; try (split; discriminate).
  rewrite String.eqb_eq. split; congruence.
Qed.

Lemma same_question_text s bank :
  existsb (same_question (PStr s)) bank = true <->
  exists e, In e bank /\ question_text e = Some (PStr s).
Proof.
  rewrite existsb_exists. split; intros [e [Hin H]]; exists e; split; auto.
  - unfold same_question in H.
    destruct (question_text e) as [a | ]; [ | discriminate ].
    apply eq_text in H. now subst.
  - unfold same_question. rewrite H. now apply eq_text.
Qed.

Lemma scan_well_formed bank q v :
  question_text q = Some v ->
  Forall (fun e => has_question e = true) bank ->
  scan_question_bank bank q = Ok (negb (existsb (same_question v) bank)).
Proof.
  intros Hq. induction 1 as [ | e bank He _ IH]; [ reflexivity | ].
  cbn [scan_question_bank existsb].
  unfold has_question in He. unfold same_question at 1.
  destruct (question_text e) as [a | ] eqn:Ea; [ | discriminate ].
  apply getitem_question_Ok in Ea, Hq. rewrite Ea, Hq. cbn [bind].
  destruct (Py.eq a v); [ reflexivity | exact IH ].
Qed.

Lemma scan_true bank q :
  scan_question_bank bank q = Ok true -> Forall (fun e => differs e q) bank.
Proof.
  induction bank as [ | e bank IH]; cbn [scan_question_bank]; intros H.
  - constructor.
  - bind_inv H. bind_inv H.
    destruct (Py.eq a a0) eqn:Eab; [ discriminate | ].
    constructor; [ | auto ].
    exists a, a0. rewrite <- !getitem_question_Ok. auto.
Qed.

Lemma validate_question_dict g d :
  validate_question g (PDict d) =
    match Py.dict_get "question" d with
    | Some v =>
        if Py.truthy v then scan_question_bank (question_bank g) (PDict d)
        else Raise ValueError
    | None => Raise ValueError
    end.
Proof.
  unfold validate_question. cbn.
  destruct (Py.dict_get "question" d) as [v | ]; cbn; [ | reflexivity ].
  destruct (Py.truthy v); reflexivity.
Qed.

(** An answer, of either kind, is given to well-formed candidates only. *)
Lemma validate_question_Ok g q b :
  validate_question g q = Ok b ->
  has_question q = true /\ scan_question_bank (question_bank g) q = Ok b.
Proof.
  destruct q; try discriminate.
  - unfold validate_question. cbn.
    destruct (Py.str_contains "question" s); discriminate.
  - unfold validate_question. cbn.
    destruct (existsb _ l); discriminate.
  - rewrite validate_question_dict. unfold has_question. cbn.
    destruct (Py.dict_get "question" d) as [v | ]; [ | discriminate ].
    destruct (Py.truthy v); [ auto | discriminate ].
Qed.

Lemma validate_question_true g q :
  validate_question g q = Ok true -> fresh (question_bank g) q.
Proof.
  intros H. apply validate_question_Ok in H as [Hq Hscan].
  split; [ exact Hq | now apply scan_true ].
Qed.

(** C7.  On a candidate dictionary, [validate_question] raises [ValueError]
    when the ["question"] item is missing or empty, the empty dictionary
    included.  Otherwise, over a bank whose entries all carry a question, it
    scans the bank in order and answers [True] exactly when no entry's
    question equals the candidate's; for a candidate text that means: no
    entry has that very text. *)
Theorem validate_question_spec g d :
  validate_question g (PDict []) = Raise ValueError
  /\ (has_question (PDict d) = false ->
      validate_question g (PDict d) = Raise ValueError)
  /\ (Forall (fun e => has_question e = true) (question_bank g) ->
      forall v, Py.dict_get "question" d = Some v -> Py.truthy v = true ->
        validate_question g (PDict d) =
          Ok (negb (existsb (same_question v) (question_bank g)))
        /\ forall s, v = PStr s ->
             (validate_question g (PDict d) = Ok true <->
              ~ exists e, In e (question_bank g) /\
                          question_text e = Some (PStr s))).
Proof.
  split; [ reflexivity | split ].
  - rewrite validate_question_dict. unfold has_question. cbn.
    destruct (Py.dict_get "question" d) as [v | ]; [ | reflexivity ].
    now intros ->.
  - intros Hbank v Hv Ht.
    assert (Hval : validate_question g (PDict d) =
              Ok (negb (existsb (same_question v) (question_bank g)))).
    { rewrite validate_question_dict, Hv, Ht.
      now apply scan_well_formed. }
    split; [ exact Hval | ].
    intros s ->. rewrite Hval, <- same_question_text.
    destruct (existsb _ _); cbn; split; congruence.
Qed.

Lemma validate_question_spec_witness :
  Forall (fun e => has_question e = true)
    (question_bank Sample.holding_paris)
  /\ validate_question Sample.holding_paris (Schema.dump Sample.paris)
     = Ok false
  /\ validate_question Sample.holding_paris (Schema.dump Sample.lopsided)
     = Ok true.
Proof.
  assert (Hbank : Forall (fun e => has_question e = true)
                    (question_bank Sample.holding_paris))
    by (repeat constructor).
  split; [ exact Hbank | split ].
  - exact (proj1 (proj2 (proj2 (validate_question_spec Sample.holding_paris
                                  (Schema.items Sample.paris))) Hbank
                    _ eq_refl eq_refl)).
  - exact (proj1 (proj2 (proj2 (validate_question_spec Sample.holding_paris
                                  (Schema.items Sample.lopsided))) Hbank
                    _ eq_refl eq_refl)).
Defined.

End Validation.

Local Open Scope list_scope.

Lemma length_range n : List.length (Py.range n) = Z.to_nat n.
Proof.
  unfold Py.range. now rewrite length_map, length_seq.
Qed.

Section Loop.

Import QuizGenerator.

Variable chain_invoke : handle -> pyval -> nat -> result pyval.
Variable json_loads_text : string -> option pyval.

Local Notation "'ask'" := (generate_question_with_vectorstore chain_invoke).
Local Notation "'retry'" := (retry chain_invoke json_loads_text).
Local Notation "'slot'" := (slot chain_invoke json_loads_text).
Local Notation "'slots'" := (slots chain_invoke json_loads_text).
Local Notation "'generate_quiz'" := (generate_quiz chain_invoke json_loads_text).

Lemma grew_refl st : grew 0 0 0 st st.
Proof.
  exists []. rewrite app_nil_r. cbn. repeat split; lia.
Qed.

Lemma accepted_app bank a1 a2 :
  accepted bank a1 -> accepted (bank ++ a1) a2 -> accepted bank (a1 ++ a2).
Proof.
  revert bank. induction a1 as [ | q a1 IH]; cbn; intros bank H1 H2.
  - now rewrite app_nil_r in H2.
  - destruct H1 as [Hq H1]. split; [ exact Hq | ].
    apply IH; [ exact H1 | ]. now rewrite <- app_assoc.
Qed.

Lemma grew_trans m1 l1 h1 m2 l2 h2 st st1 st2 :
  grew m1 l1 h1 st st1 -> grew m2 l2 h2 st1 st2 ->
  grew (m1 + m2) (l1 + l2) (h1 + h2) st st2.
Proof.
  intros (a1 & B1 & A1 & L1 & I1 & J1) (a2 & B2 & A2 & L2 & I2 & J2).
  exists (a1 ++ a2). rewrite B2, B1, app_assoc, length_app.
  repeat split; try lia.
  apply accepted_app; [ exact A1 | now rewrite <- B1 ].
Qed.

Lemma grew_weaken m l h m' l' h' st st' :
  grew m l h st st' -> (m <= m')%nat -> (l' <= l)%nat -> (h <= h')%nat ->
  grew m' l' h' st st'.
Proof.
  intros (a & B & A & L & I & J) Hm Hl Hh.
  exists a. repeat split; auto; lia.
Qed.

Lemma ask_Ok st v st1 :
  ask st = Ok (v, st1) ->
  bank_of st1 = bank_of st /\ invocations st1 = S (invocations st).
Proof.
  unfold generate_question_with_vectorstore, bank_of.
  destruct (llm (self st)); cbn;
    destruct (vectorstore (self st)); try discriminate;
    intros H; bind_inv H; injection H as _ <-; auto.
Qed.

Lemma ask_grew st v st1 : ask st = Ok (v, st1) -> grew 0 1 1 st st1.
Proof.
  intros H. apply ask_Ok in H as [B I].
  exists []. rewrite app_nil_r. cbn. repeat split; auto; lia.
Qed.

Lemma append_grew st question :
  validate_question (self st) question = Ok true ->
  grew 1 0 0 st (append question st).
Proof.
  intros H. apply validate_question_true in H.
  exists [question]. unfold bank_of. cbn.
  split; [ reflexivity | ]. split; [ now split | ]. lia.
Qed.

(** The retry sub-loop, when it ends normally, has put at most one fresh
    candidate at the end of the bank and invoked the chain at most once per
    attempt. *)
Lemma retry_grew attempts :
  forall st st', retry attempts st = Ok st' ->
                 grew 1 0 (List.length attempts) st st'.
Proof.
  induction attempts as [ | i rest IH]; cbn [QuizGenerator.retry];
    intros st st' H.
  - injection H as <-. eapply grew_weaken; [ apply grew_refl | lia .. ].
  - bind_inv H. destruct a as [question_str st1].
    apply ask_grew in E.
    destruct (json_loads json_loads_text question_str) as [question | e].
    + bind_inv H. destruct a.
      * injection H as <-. apply append_grew in E0.
        eapply grew_weaken; [ exact (grew_trans _ _ _ _ _ _ _ _ _ E E0) | .. ];
          cbn; lia.
      * discriminate H.
    + destruct e; try discriminate H.
      apply IH in H.
      eapply grew_weaken; [ exact (grew_trans _ _ _ _ _ _ _ _ _ E H) | .. ];
        cbn; lia.
Qed.

(** One slot: one to four chain invocations, at most one entry more. *)
Lemma slot_grew st st' : slot st = Ok st' -> grew 1 1 4 st st'.
Proof.
  unfold QuizGenerator.slot. intros H.
  bind_inv H. destruct a as [question st1]. apply ask_grew in E.
  bind_inv H. destruct a.
  - injection H as <-. apply append_grew in E0.
    eapply grew_weaken; [ exact (grew_trans _ _ _ _ _ _ _ _ _ E E0) | .. ];
      cbn; lia.
  - apply retry_grew in H. rewrite length_range in H.
    eapply grew_weaken; [ exact (grew_trans _ _ _ _ _ _ _ _ _ E H) | .. ];
      cbn; lia.
Qed.

Lemma slots_grew iterations :
  forall st st', slots iterations st = Ok st' ->
    grew (List.length iterations) (List.length iterations)
         (4 * List.length iterations) st st'.
Proof.
  induction iterations as [ | i rest IH]; cbn [QuizGenerator.slots];
    intros st st' H.
  - injection H as <-. apply grew_refl.
  - bind_inv H. apply slot_grew in E. apply IH in H.
    eapply grew_weaken; [ exact (grew_trans _ _ _ _ _ _ _ _ _ E H) | .. ];
      cbn [List.length]; lia.
Qed.

Lemma slots_app its1 its2 st :
  slots (its1 ++ its2) st = (st1 <- slots its1 st ;; slots its2 st1).
Proof.
  revert st. induction its1 as [ | i its1 IH]; intros st; cbn; [ reflexivity | ].
  destruct (slot st) as [st1 | e]; cbn; [ apply IH | reflexivity ].
Qed.

Lemma generate_quiz_Ok st bank st' :
  generate_quiz st = Ok (bank, st') ->
  bank = bank_of st' /\
  slots (Py.range (num_questions (self st))) (with_bank [] st) = Ok st'.
Proof.
  unfold QuizGenerator.generate_quiz. intros H.
  bind_inv H. injection H as <- <-. split; [ reflexivity | exact E ].
Qed.

End Loop.

Section Bank.

Lemma deduplicated_accepted added :
  forall bank, deduplicated bank -> accepted bank added ->
               deduplicated (bank ++ added).
Proof.
  induction added as [ | q added IH]; cbn; intros bank Hb Ha.
  - now rewrite app_nil_r.
  - destruct Ha as [Hq Ha].
    replace (bank ++ q :: added) with ((bank ++ [q]) ++ added)
      by now rewrite <- app_assoc.
    apply IH; [ now constructor | exact Ha ].
Qed.

Lemma deduplicated_has_question bank :
  deduplicated bank -> Forall (fun e => has_question e = true) bank.
Proof.
  induction 1 as [ | bank q _ IH [Hq _]]; [ constructor | ].
  apply Forall_app. split; [ exact IH | now constructor ].
Qed.

Lemma deduplicated_pairs bank :
  deduplicated bank ->
  forall i j ei ej, (i < j)%nat ->
    nth_error bank i = Some ei -> nth_error bank j = Some ej ->
    differs ei ej.
Proof.
  induction 1 as [ | bank q _ IH [_ Hq]]; intros i j ei ej Hij Hi Hj.
  - destruct i; discriminate.
  - destruct (Nat.lt_ge_cases j (List.length bank)) as [Hlt | Hge].
    + rewrite nth_error_app1 in Hi, Hj by lia. eauto.
    + rewrite nth_error_app2 in Hj by lia.
      destruct (j - List.length bank)%nat as [ | m] eqn:Em.
      * injection Hj as <-.
        rewrite nth_error_app1 in Hi by lia.
        rewrite Forall_forall in Hq. eapply Hq, nth_error_In, Hi.
      * destruct m; discriminate.
Qed.

Lemma differs_text e q :
  differs e q ->
  exists a b, question_text e = Some a /\ question_text q = Some b /\
              Py.eq a b = false /\
              forall s t, a = PStr s -> b = PStr t -> s <> t.
Proof.
  intros (a & b & Ha & Hb & Hab). exists a, b. repeat split; auto.
  intros s t -> -> ->. cbn in Hab. now rewrite String.eqb_refl in Hab.
Qed.

Lemma has_question_inv e :
  has_question e = true ->
  exists d v, e = PDict d /\ Py.dict_get "question" d = Some v /\
              Py.truthy v = true /\
              forall s, v = PStr s -> s <> EmptyString.
Proof.
  unfold has_question. destruct e; try discriminate. cbn.
  destruct (Py.dict_get "question" d) as [v | ] eqn:E; [ | discriminate ].
  intros Hv. exists d, v. repeat split; auto.
  intros s -> ->. discriminate.
Qed.

End Bank.

Section Quiz.

Import QuizGenerator.

Variable chain_invoke : handle -> pyval -> nat -> result pyval.
Variable json_loads_text : string -> option pyval.

Local Notation "'slots'" := (slots chain_invoke json_loads_text).
Local Notation "'generate_quiz'" :=
  (generate_quiz chain_invoke json_loads_text).

(** A completed run: the returned list is the bank of the final state, it
    was built from the empty bank out of fresh candidates, at most one per
    slot, and each slot invoked the chain one to four times. *)
Lemma generate_quiz_grew st bank st' :
  generate_quiz st = Ok (bank, st') ->
  bank = bank_of st' /\ deduplicated bank /\
  (List.length bank <= Z.to_nat (num_questions (self st)))%nat /\
  (invocations st + Z.to_nat (num_questions (self st)) <= invocations st')%nat /\
  (invocations st' <= invocations st + 4 * Z.to_nat (num_questions (self st)))%nat.
Proof.
  intros H. apply generate_quiz_Ok in H as [-> H].
  apply slots_grew in H. rewrite length_range in H.
  destruct H as (added & B & A & L & I & J). cbn in B, A, I, J.
  rewrite B. repeat split; auto.
  apply (deduplicated_accepted added []); [ constructor | exact A ].
Qed.

(** C3.  In the list a completed [generate_quiz] returns, any two entries
    carry questions that [==] tells apart; where both are text, the two
    texts are different strings. *)
Theorem generate_quiz_no_duplicates st bank st' :
  generate_quiz st = Ok (bank, st') ->
  forall i j ei ej, (i < j)%nat ->
    nth_error bank i = Some ei -> nth_error bank j = Some ej ->
    exists a b, question_text ei = Some a /\ question_text ej = Some b /\
                Py.eq a b = false /\
                forall s t, a = PStr s -> b = PStr t -> s <> t.
Proof.
  intros H i j ei ej Hij Hi Hj.
  apply generate_quiz_grew in H as (_ & D & _).
  apply differs_text. exact (deduplicated_pairs bank D i j ei ej Hij Hi Hj).
Qed.

(** C4.  With [num_questions] between 1 and 10, the list a completed
    [generate_quiz] returns has at most [num_questions] entries: the run
    went through [num_questions] slots, each of them invoking the chain
    between one and four times and adding at most one entry. *)
Theorem generate_quiz_length st bank st' :
  1 <= num_questions (self st) <= 10 ->
  generate_quiz st = Ok (bank, st') ->
  Z.of_nat (List.length bank) <= num_questions (self st)
  /\ Z.of_nat (invocations st) + num_questions (self st)
     <= Z.of_nat (invocations st')
  /\ Z.of_nat (invocations st')
     <= Z.of_nat (invocations st) + 4 * num_questions (self st).
Proof.
  intros Hn H. apply generate_quiz_grew in H as (_ & _ & L & I & J). lia.
Qed.

(** C5, as the code has it.  Every entry of the list a completed
    [generate_quiz] returns is a dictionary with a ["question"] item that is
    not empty; nothing more is asked of an entry. *)
Theorem generate_quiz_entries_have_question st bank st' :
  generate_quiz st = Ok (bank, st') ->
  Forall (fun e => exists d v,
              e = PDict d /\ Py.dict_get "question" d = Some v /\
              Py.truthy v = true /\
              forall s, v = PStr s -> s <> EmptyString) bank.
Proof.
  intros H. apply generate_quiz_grew in H as (_ & D & _).
  apply deduplicated_has_question in D.
  eapply Forall_impl; [ | exact D ]. intros e. apply has_question_inv.
Qed.

Lemma range_split (k n : nat) :
  (k <= n)%nat ->
  Py.range (Z.of_nat n) =
    Py.range (Z.of_nat k) ++ map Z.of_nat (seq k (n - k)).
Proof.
  intros Hk. unfold Py.range. rewrite !Nat2Z.id, <- map_app, <- seq_app.
  do 2 f_equal. lia.
Qed.

(** C9.  [generate_quiz] starts from the empty bank whatever the bank held
    before, and from then on the bank only grows at its end: the bank after
    any number [k] of slots is an initial segment of the returned list, and
    what follows it was appended one accepted candidate after the other. *)
Theorem question_bank_reset_and_append_only st bank st' :
  generate_quiz st = Ok (bank, st') ->
  (forall qb, generate_quiz (with_bank qb st) = Ok (bank, st'))
  /\ bank = bank_of st'
  /\ forall k, (k <= Z.to_nat (num_questions (self st)))%nat ->
       exists st_k later,
         slots (Py.range (Z.of_nat k)) (with_bank [] st) = Ok st_k
         /\ (k = 0%nat -> bank_of st_k = [])
         /\ bank = bank_of st_k ++ later
         /\ accepted (bank_of st_k) later.
Proof.
  intros H. split; [ | split ].
  - intros qb. exact H.
  - now apply generate_quiz_Ok in H.
  - intros k Hk. apply generate_quiz_Ok in H as [-> H].
    destruct (Z_le_gt_dec (num_questions (self st)) 0) as [Hn | Hn].
    + assert (k = 0%nat) as -> by lia.
      replace (Py.range (num_questions (self st))) with (@nil Z) in H
        by (unfold Py.range; now replace (Z.to_nat _) with 0%nat by lia).
      injection H as <-.
      exists (with_bank [] st), []. cbn. auto.
    + rewrite <- (Z2Nat.id (num_questions (self st))) in H by lia.
      rewrite (range_split k) in H by exact Hk.
      rewrite slots_app in H. apply bind_Ok in H as (st_k & Hk1 & Hk2).
      apply slots_grew in Hk2 as (later & B & A & _).
      exists st_k, later. repeat split; auto.
      intros ->. cbn in Hk1. now injection Hk1 as <-.
Qed.

(** C10.  The constructor accepts every [num_questions] that is zero or
    negative, and [generate_quiz] on such an instance returns the empty
    list without invoking the chain. *)
Theorem nonpositive_num_questions topic n vs :
  n <= 0 ->
  exists g, __init__ topic n vs = Ok g
            /\ num_questions g = n
            /\ forall k, generate_quiz (mkState g k) = Ok ([], mkState g k).
Proof.
  intros Hn. eexists. split; [ apply init_within_limit; lia | ].
  split; [ reflexivity | ].
  intros k. unfold QuizGenerator.generate_quiz, Py.range. cbn.
  replace (Z.to_nat n) with 0%nat by lia. reflexivity.
Qed.

End Quiz.

Section Retry.

Import QuizGenerator.

Variable chain_invoke : handle -> pyval -> nat -> result pyval.
Variable json_loads_text : string -> option pyval.

Local Notation "'ask'" := (generate_question_with_vectorstore chain_invoke).
Local Notation "'retry'" := (retry chain_invoke json_loads_text).
Local Notation "'slot'" := (slot chain_invoke json_loads_text).

(** A reply that is text but not JSON costs the attempt and nothing else. *)
Lemma retry_undecodable_continues i rest st s st1 :
  ask st = Ok (PStr s, st1) -> json_loads_text s = None ->
  retry (i :: rest) st = retry rest st1.
Proof.
  intros Hask Hs. cbn [QuizGenerator.retry]. rewrite Hask. cbn.
  now rewrite Hs.
Qed.

(** A reply the output parser has already turned into a value stops the
    run: [json.loads] takes text only. *)
Lemma retry_parsed_reply_raises i rest st v st1 :
  ask st = Ok (v, st1) -> (forall s, v <> PStr s) ->
  retry (i :: rest) st = Raise TypeError.
Proof.
  intros Hask Hv. cbn [QuizGenerator.retry]. rewrite Hask. cbn.
  destruct v; try reflexivity. now elim (Hv s).
Qed.

(** A duplicate found by a retry stops the run: the message for it adds a
    number to a text. *)
Lemma retry_duplicate_raises i rest st s st1 question :
  ask st = Ok (PStr s, st1) -> json_loads_text s = Some question ->
  validate_question (self st1) question = Ok false ->
  retry (i :: rest) st = Raise TypeError.
Proof.
  intros Hask Hs Hdup. cbn [QuizGenerator.retry]. rewrite Hask. cbn.
  rewrite Hs, Hdup. reflexivity.
Qed.

(** Whatever the chain raises leaves the sub-loop and the slot. *)
Lemma chain_failure_escapes i rest st e :
  ask st = Raise e ->
  retry (i :: rest) st = Raise e /\ slot st = Raise e.
Proof.
  intros Hask. unfold QuizGenerator.slot. cbn [QuizGenerator.retry].
  now rewrite Hask.
Qed.

End Retry.

(** ** The sample runs *)

(** C1.  What the retry sub-loop does on the replies the chain really gives.
    A model that repeats one question for two slots, a model that gives
    another question on its third call, and a model that repeats the question
    as JSON text on the retries all end [generate_quiz] with [TypeError]: no
    slot is skipped and no list is returned. *)
Theorem retry_after_duplicate_raises :
  (forall loads,
      QuizGenerator.generate_quiz Sample.always_paris loads
        (Sample.fresh_instance "X" 2) = Raise TypeError)
  /\ (forall loads,
         QuizGenerator.generate_quiz Sample.distinct_third loads
           (Sample.fresh_instance "X" 2) = Raise TypeError)
  /\ QuizGenerator.generate_quiz Sample.repeated_as_text Json.loads_text
       (Sample.fresh_instance "X" 2) = Raise TypeError.
Proof.
  split; [ | split ]; try (intros loads); reflexivity.
Qed.

(** C2.  A reply the output parser cannot read ends [generate_quiz] with the
    parser's exception, on the first call of a slot as well as inside the
    retry sub-loop. *)
Theorem unreadable_reply_escapes :
  (forall loads,
      QuizGenerator.generate_quiz Sample.unreadable_third loads
        (Sample.fresh_instance "X" 2) = Raise OutputParserException)
  /\ (forall loads,
         QuizGenerator.generate_quiz Sample.unreadable_first loads
           (Sample.fresh_instance "X" 1) = Raise OutputParserException).
Proof.
  split; intros loads; reflexivity.
Qed.

(** The run over [Sample.mixed]: slot 1 filled at once, slot 2 on the second
    retry after a reply that is no JSON, slot 3 given up after three such
    replies. *)
Lemma mixed_run :
  QuizGenerator.generate_quiz Sample.mixed Json.loads_text
    (Sample.fresh_instance "X" 3) = Ok (Sample.mixed_bank, Sample.mixed_final).
Proof. vm_compute. reflexivity. Qed.

Lemma generate_quiz_no_duplicates_witness :
  QuizGenerator.generate_quiz Sample.mixed Json.loads_text
    (Sample.fresh_instance "X" 3) = Ok (Sample.mixed_bank, Sample.mixed_final)
  /\ exists a b,
       question_text (Schema.dump Sample.paris) = Some a
       /\ question_text Sample.q2 = Some b
       /\ Py.eq a b = false
       /\ forall s t, a = PStr s -> b = PStr t -> s <> t.
Proof.
  assert (H : QuizGenerator.generate_quiz Sample.mixed Json.loads_text
                (Sample.fresh_instance "X" 3)
              = Ok (Sample.mixed_bank, Sample.mixed_final))
    by (vm_compute; reflexivity).
  split; [ exact H | ].
  exact (generate_quiz_no_duplicates _ _ _ _ _ H 0%nat 1%nat _ _
           Nat.lt_0_1 eq_refl eq_refl).
Defined.

Lemma generate_quiz_length_witness :
  1 <= 3 <= 10
  /\ QuizGenerator.generate_quiz Sample.mixed Json.loads_text
       (Sample.fresh_instance "X" 3) = Ok (Sample.mixed_bank, Sample.mixed_final)
  /\ Z.of_nat (List.length Sample.mixed_bank) <= 3.
Proof.
  assert (Hn : 1 <= 3 <= 10) by lia.
  assert (H : QuizGenerator.generate_quiz Sample.mixed Json.loads_text
                (Sample.fresh_instance "X" 3)
              = Ok (Sample.mixed_bank, Sample.mixed_final))
    by (vm_compute; reflexivity).
  split; [ exact Hn | split; [ exact H | ] ].
  exact (proj1 (generate_quiz_length _ _ (Sample.fresh_instance "X" 3) _ _
                  Hn H)).
Defined.

Lemma generate_quiz_entries_have_question_witness :
  QuizGenerator.generate_quiz Sample.mixed Json.loads_text
    (Sample.fresh_instance "X" 3) = Ok (Sample.mixed_bank, Sample.mixed_final)
  /\ Forall (fun e => exists d v,
                 e = PDict d /\ Py.dict_get "question" d = Some v /\
                 Py.truthy v = true /\
                 forall s, v = PStr s -> s <> EmptyString) Sample.mixed_bank.
Proof.
  assert (H : QuizGenerator.generate_quiz Sample.mixed Json.loads_text
                (Sample.fresh_instance "X" 3)
              = Ok (Sample.mixed_bank, Sample.mixed_final))
    by (vm_compute; reflexivity).
  split; [ exact H | ].
  exact (generate_quiz_entries_have_question _ _ _ _ _ H).
Defined.

(** C5 as written fails: a reply with the four typed fields of
    [QuestionSchema], one choice and an answer that names no choice is
    returned as the quiz. *)
Lemma malformed_entry_returned :
  Sample.returned
    (QuizGenerator.generate_quiz Sample.only_lopsided Json.loads_text
       (Sample.fresh_instance "X" 1)) = Some [Schema.dump Sample.lopsided]
  /\ Schema.spec_question_invariants (Schema.dump Sample.lopsided) = false.
Proof.
  split; reflexivity.
Qed.

Lemma question_bank_reset_and_append_only_witness :
  QuizGenerator.generate_quiz Sample.mixed Json.loads_text
    (Sample.fresh_instance "X" 3) = Ok (Sample.mixed_bank, Sample.mixed_final)
  /\ (forall qb,
         QuizGenerator.generate_quiz Sample.mixed Json.loads_text
           (with_bank qb (Sample.fresh_instance "X" 3))
         = Ok (Sample.mixed_bank, Sample.mixed_final))
  /\ exists st_k later,
       QuizGenerator.slots Sample.mixed Json.loads_text (Py.range 1)
         (with_bank [] (Sample.fresh_instance "X" 3)) = Ok st_k
       /\ Sample.mixed_bank = bank_of st_k ++ later.
Proof.
  assert (H : QuizGenerator.generate_quiz Sample.mixed Json.loads_text
                (Sample.fresh_instance "X" 3)
              = Ok (Sample.mixed_bank, Sample.mixed_final))
    by (vm_compute; reflexivity).
  split; [ exact H | ].
  destruct (question_bank_reset_and_append_only _ _ _ _ _ H) as (R & _ & A).
  split; [ exact R | ].
  destruct (A 1%nat) as (st_k & later & Hk & _ & B & _); [ cbn; lia | ].
  exists st_k, later. split; [ exact Hk | exact B ].
Defined.

Lemma nonpositive_num_questions_witness :
  -2 <= 0
  /\ exists g,
       QuizGenerator.__init__ (PStr "X") (-2) (Some 0%nat) = Ok g
       /\ QuizGenerator.num_questions g = -2
       /\ forall k,
            QuizGenerator.generate_quiz Sample.always_paris Json.loads_text
              (QuizGenerator.mkState g k) = Ok ([], QuizGenerator.mkState g k).
Proof.
  assert (Hn : -2 <= 0) by lia.
  split; [ exact Hn | ].
  exact (nonpositive_num_questions Sample.always_paris Json.loads_text
           (PStr "X") (-2) (Some 0%nat) Hn).
Defined.

(** ** Further properties of the generator *)

Section Asking.

Import QuizGenerator.

Variable chain_invoke : handle -> pyval -> nat -> result pyval.
Variable json_loads_text : string -> option pyval.

Local Notation "'ask'" := (generate_question_with_vectorstore chain_invoke).
Local Notation "'retry'" := (retry chain_invoke json_loads_text).
Local Notation "'slot'" := (slot chain_invoke json_loads_text).
Local Notation "'slots'" := (slots chain_invoke json_loads_text).
Local Notation "'generate_quiz'" := (generate_quiz chain_invoke json_loads_text).

(** The state a successful question generation leaves. *)
Lemma ask_inv st v st1 :
  ask st = Ok (v, st1) ->
  exists h,
    vectorstore (self st) = Some h
    /\ chain_invoke h (topic (self st)) (invocations st) = Ok v
    /\ st1 = mkState (set_llm true (self st)) (S (invocations st)).
Proof.
  unfold generate_question_with_vectorstore.
  destruct st as [[t n vs l qb] k]. cbn.
  destruct l; cbn; (destruct vs as [h | ]; [ | discriminate ]);
    intros H; bind_inv H; injection H as <- <-; exists h; auto.
Qed.

Lemma ask_reply st h v :
  vectorstore (self st) = Some h ->
  chain_invoke h (topic (self st)) (invocations st) = Ok v ->
  ask st = Ok (v, mkState (set_llm true (self st)) (S (invocations st))).
Proof.
  unfold generate_question_with_vectorstore.
  destruct st as [[t n vs l qb] k]. cbn. intros -> Hv.
  destruct l; cbn; rewrite Hv; reflexivity.
Qed.

Lemma ask_Raise st e :
  ask st = Raise e ->
  (vectorstore (self st) = None /\ e = ValueError)
  \/ exists h, vectorstore (self st) = Some h
               /\ chain_invoke h (topic (self st)) (invocations st) = Raise e.
Proof.
  unfold generate_question_with_vectorstore.
  destruct st as [[t n vs l qb] k]. cbn.
  destruct l, vs as [h | ]; cbn; intros H.
  - right. exists h. split; [ reflexivity | ].
    destruct (chain_invoke h t k); cbn in H; congruence.
  - left. split; congruence.
  - right. exists h. split; [ reflexivity | ].
    destruct (chain_invoke h t k); cbn in H; congruence.
  - left. split; congruence.
Qed.

Lemma no_vectorstore_raises iterations st :
  vectorstore (self st) = None -> iterations <> [] ->
  ask st = Raise ValueError /\ slots iterations st = Raise ValueError.
Proof.
  intros Hvs Hi.
  assert (Hask : ask st = Raise ValueError).
  { unfold generate_question_with_vectorstore.
    destruct (llm (self st)); cbn; now rewrite Hvs. }
  split; [ exact Hask | ].
  destruct iterations as [ | i rest]; [ congruence | ].
  cbn [QuizGenerator.slots]. unfold QuizGenerator.slot. now rewrite Hask.
Qed.

Lemma generate_quiz_unfold st :
  generate_quiz st =
    (st1 <- slots (Py.range (num_questions (self st))) (with_bank [] st) ;;
     Ok (question_bank (self st1), st1)).
Proof. reflexivity. Qed.

Lemma range_nonempty n : 1 <= n -> Py.range n <> [].
Proof.
  intros Hn. unfold Py.range.
  destruct (Z.to_nat n) eqn:E; [ lia | discriminate ].
Qed.

(** Only the bank matters to [validate_question]. *)
Lemma validate_question_bank g g' q :
  question_bank g = question_bank g' ->
  validate_question g q = validate_question g' q.
Proof.
  unfold validate_question. now intros ->.
Qed.


Lemma kept_refl st : kept st st.
Proof. repeat split; auto. Qed.

Lemma kept_trans st st1 st2 : kept st st1 -> kept st1 st2 -> kept st st2.
Proof.
  unfold kept, same_config.
  intros ((A & B & C) & D) ((A' & B' & C') & D').
  repeat split; try congruence. auto.
Qed.

Lemma ask_kept st v st1 :
  ask st = Ok (v, st1) -> kept st st1 /\ llm (self st1) = true.
Proof.
  intros H. apply ask_inv in H as (h & _ & _ & ->). repeat split.
Qed.

Lemma append_kept q st : kept st (append q st).
Proof. repeat split; auto. Qed.

Lemma retry_kept attempts :
  forall st st', retry attempts st = Ok st' -> kept st st'.
Proof.
  induction attempts as [ | i rest IH]; cbn [QuizGenerator.retry];
    intros st st' H.
  - injection H as <-. apply kept_refl.
  - bind_inv H. destruct a as [question_str st1].
    apply ask_kept in E as [K _].
    destruct (json_loads json_loads_text question_str) as [question | e].
    + bind_inv H. destruct a; [ | discriminate H ].
      injection H as <-. eapply kept_trans; [ exact K | apply append_kept ].
    + destruct e; try discriminate H.
      eapply kept_trans; [ exact K | now apply IH ].
Qed.

Lemma slot_kept st st' :
  slot st = Ok st' -> kept st st' /\ llm (self st') = true.
Proof.
  unfold QuizGenerator.slot. intros H.
  bind_inv H. destruct a as [question st1]. apply ask_kept in E as [K L].
  bind_inv H. destruct a.
  - injection H as <-. split; [ | exact L ].
    eapply kept_trans; [ exact K | apply append_kept ].
  - apply retry_kept in H. split.
    + eapply kept_trans; eassumption.
    + now apply H.
Qed.

Lemma slots_kept iterations :
  forall st st', slots iterations st = Ok st' ->
    kept st st' /\ (iterations <> [] -> llm (self st') = true).
Proof.
  induction iterations as [ | i rest IH]; cbn [QuizGenerator.slots];
    intros st st' H.
  - injection H as <-. split; [ apply kept_refl | congruence ].
  - bind_inv H. apply slot_kept in E as [K L]. apply IH in H as [K' _].
    split; [ eapply kept_trans; eassumption | ].
    intros _. now apply K'.
Qed.

(** X2.  A completed [generate_quiz] leaves topic, question count and
    context source as they were; when at least one question was asked for,
    there was a context source and the language-model client exists
    afterwards. *)
Theorem generate_quiz_keeps_config st bank st' :
  generate_quiz st = Ok (bank, st') ->
  same_config (self st) (self st')
  /\ (1 <= num_questions (self st) ->
      llm (self st') = true /\ vectorstore (self st') <> None).
Proof.
  intros H. pose proof H as H0.
  apply generate_quiz_Ok in H as [_ H].
  apply slots_kept in H as [[C _] L]. split; [ exact C | ].
  intros Hn. split.
  - apply L. unfold Py.range.
    destruct (Z.to_nat (num_questions (self st))) eqn:E; [ lia | discriminate ].
  - destruct C as (_ & _ & C). rewrite C. intros Hvs.
    destruct (no_vectorstore_raises (Py.range (num_questions (self st)))
                (with_bank [] st) Hvs (range_nonempty _ Hn)) as [_ R].
    rewrite generate_quiz_unfold, R in H0. discriminate H0.
Qed.

End Asking.

Section Slots.

Import QuizGenerator.

Variable chain_invoke : handle -> pyval -> nat -> result pyval.
Variable json_loads_text : string -> option pyval.

Local Notation "'replies'" := (replies chain_invoke).

Local Notation "'ask'" := (generate_question_with_vectorstore chain_invoke).
Local Notation "'retry'" := (retry chain_invoke json_loads_text).
Local Notation "'slot'" := (slot chain_invoke json_loads_text).
Local Notation "'slots'" := (slots chain_invoke json_loads_text).
Local Notation "'generate_quiz'" := (generate_quiz chain_invoke json_loads_text).

(** Against an empty bank every answer of [validate_question] is [True]. *)
Lemma validate_question_empty_bank g q b :
  question_bank g = [] -> validate_question g q = Ok b -> b = true.
Proof.
  intros Hb H. apply validate_question_Ok in H as [_ H].
  rewrite Hb in H. cbn in H. congruence.
Qed.

Lemma slot_empty_bank st st' :
  bank_of st = [] -> slot st = Ok st' ->
  exists h v, vectorstore (self st) = Some h
              /\ chain_invoke h (topic (self st)) (invocations st) = Ok v
              /\ st' = filled v st.
Proof.
  unfold QuizGenerator.slot. intros Hb H.
  bind_inv H. destruct a as [question st1].
  apply ask_inv in E as (h & Hvs & Hv & ->).
  bind_inv H.
  apply validate_question_empty_bank in E; [ | exact Hb ]. subst a.
  injection H as <-. exists h, question. auto.
Qed.

Lemma slots_from_empty_bank iterations st st' :
  iterations <> [] -> bank_of st = [] ->
  slots iterations st = Ok st' ->
  exists h first later,
    vectorstore (self st) = Some h
    /\ chain_invoke h (topic (self st)) (invocations st) = Ok first
    /\ bank_of st' = first :: later.
Proof.
  intros Hi Hb H. destruct iterations as [ | i rest]; [ congruence | ].
  cbn [QuizGenerator.slots] in H. bind_inv H.
  apply slot_empty_bank in E as (h & v & Hvs & Hv & ->); [ | exact Hb ].
  apply slots_grew in H as (added & B & _).
  exists h, v, added. repeat split; auto.
  rewrite B. unfold bank_of in *. cbn. now rewrite Hb.
Qed.

(** X3.  The first slot of a run is always filled: a completed
    [generate_quiz] for at least one question returns a list that starts with
    the chain's first reply of the run. *)
Theorem generate_quiz_first_slot st bank st' :
  1 <= num_questions (self st) ->
  generate_quiz st = Ok (bank, st') ->
  exists h first,
    vectorstore (self st) = Some h
    /\ chain_invoke h (topic (self st)) (invocations st) = Ok first
    /\ nth_error bank 0 = Some first.
Proof.
  intros Hn H. apply generate_quiz_Ok in H as [-> H].
  apply slots_from_empty_bank in H as (h & v & later & Hvs & Hv & B);
    [ | now apply range_nonempty | reflexivity ].
  exists h, v. repeat split; auto. now rewrite B.
Qed.

Lemma replies_tail h topic k v vs :
  replies h topic k (v :: vs) ->
  chain_invoke h topic k = Ok v /\ replies h topic (S k) vs.
Proof.
  intros H. split.
  - rewrite <- (Nat.add_0_r k). now apply H.
  - intros i w Hi. replace (S k + i)%nat with (k + S i)%nat by lia.
    now apply H.
Qed.

Lemma replies_cons h topic k v vs :
  chain_invoke h topic k = Ok v -> replies h topic (S k) vs ->
  replies h topic k (v :: vs).
Proof.
  intros Hv H [ | i] w Hi; cbn in Hi.
  - injection Hi as <-. now rewrite Nat.add_0_r.
  - replace (k + S i)%nat with (S k + i)%nat by lia. now apply H.
Qed.

(** A fresh candidate is answered [True] by a bank whose entries all carry
    a question. *)
Lemma fresh_validate g q :
  Forall (fun e => has_question e = true) (question_bank g) ->
  fresh (question_bank g) q -> validate_question g q = Ok true.
Proof.
  intros Hbank [Hq Hd].
  destruct (has_question_inv q Hq) as (d & v & -> & Hv & Ht & _).
  rewrite validate_question_dict, Hv, Ht.
  rewrite (scan_well_formed _ _ v) by (auto; exact Hbank).
  f_equal. apply negb_true_iff.
  destruct (existsb (same_question v) (question_bank g)) eqn:E; [ | reflexivity ].
  apply existsb_exists in E as (e & Hin & He).
  rewrite Forall_forall in Hd.
  destruct (Hd e Hin) as (a & b & Ha & Hb & Hab).
  cbn in Hb. unfold same_question in He. rewrite Ha in He. congruence.
Qed.

Lemma slots_fresh_replies vs :
  forall iterations st h,
    List.length iterations = List.length vs ->
    vectorstore (self st) = Some h ->
    Forall (fun e => has_question e = true) (bank_of st) ->
    accepted (bank_of st) vs ->
    replies h (topic (self st)) (invocations st) vs ->
    exists st',
      slots iterations st = Ok st'
      /\ bank_of st' = bank_of st ++ vs
      /\ invocations st' = (invocations st + List.length vs)%nat.
Proof.
  induction vs as [ | v vs IH]; intros [ | i rest] st h Hlen Hvs Hwf Hacc Hrep;
    try discriminate Hlen.
  - exists st. cbn. rewrite app_nil_r. auto.
  - destruct Hacc as [Hv Hacc]. apply replies_tail in Hrep as [Hfirst Hrep].
    cbn [QuizGenerator.slots]. unfold QuizGenerator.slot.
    rewrite (ask_reply _ st h v Hvs Hfirst). cbn [bind self].
    rewrite (fresh_validate (set_llm true (self st)) v Hwf Hv). cbn [bind].
    destruct (IH rest (filled v st) h) as (st' & Hrun & Hb & Hk); auto.
    + apply Forall_app. split; [ exact Hwf | ].
      constructor; [ apply Hv | constructor ].
    + exists st'. split; [ exact Hrun | ].
      rewrite Hb, Hk. unfold bank_of. cbn.
      rewrite <- app_assoc. split; [ reflexivity | lia ].
Qed.

(** X4.  When the chain replies, one after the other, with candidates that
    each carry a non-empty question differing from those of all replies
    before, [generate_quiz] completes and returns exactly these replies in
    order, one chain invocation each. *)
Theorem generate_quiz_distinct_replies st h vs :
  vectorstore (self st) = Some h ->
  List.length vs = Z.to_nat (num_questions (self st)) ->
  accepted [] vs ->
  replies h (topic (self st)) (invocations st) vs ->
  exists st',
    generate_quiz st = Ok (vs, st')
    /\ invocations st' = (invocations st + List.length vs)%nat.
Proof.
  intros Hvs Hlen Hacc Hrep.
  assert (Hl : List.length (Py.range (num_questions (self st)))
               = List.length vs) by now rewrite length_range.
  destruct (slots_fresh_replies vs (Py.range (num_questions (self st)))
              (with_bank [] st) h Hl Hvs (Forall_nil _) Hacc Hrep)
    as (st' & Hrun & Hb & Hk).
  exists st'. rewrite generate_quiz_unfold, Hrun. cbn [bind].
  split; [ | exact Hk ]. do 2 f_equal. exact Hb.
Qed.

(** A slot over a chain whose replies are never text ends normally only by
    taking the first reply. *)
Lemma slot_parsed st st' :
  (forall h t k s, chain_invoke h t k <> Ok (PStr s)) ->
  slot st = Ok st' ->
  exists h v, vectorstore (self st) = Some h
              /\ chain_invoke h (topic (self st)) (invocations st) = Ok v
              /\ st' = filled v st.
Proof.
  unfold QuizGenerator.slot. intros Hparsed H.
  bind_inv H. destruct a as [question st1].
  apply ask_inv in E as (h & Hvs & Hv & ->).
  bind_inv H. destruct a.
  - injection H as <-. exists h, question. auto.
  - exfalso. change (Py.range 3) with [0; 1; 2] in H.
    cbn [QuizGenerator.retry] in H. bind_inv H.
    destruct a as [question_str st2].
    apply ask_inv in E0 as (h2 & _ & Hv2 & _).
    destruct question_str; try discriminate H.
    now apply Hparsed in Hv2.
Qed.

Lemma slots_parsed iterations :
  (forall h t k s, chain_invoke h t k <> Ok (PStr s)) ->
  forall st st', slots iterations st = Ok st' ->
    exists vs,
      bank_of st' = bank_of st ++ vs
      /\ List.length vs = List.length iterations
      /\ invocations st' = (invocations st + List.length iterations)%nat
      /\ forall h, vectorstore (self st) = Some h ->
                   replies h (topic (self st)) (invocations st) vs.
Proof.
  intros Hparsed.
  induction iterations as [ | i rest IH]; cbn [QuizGenerator.slots];
    intros st st' H.
  - injection H as <-. exists []. rewrite app_nil_r. cbn.
    repeat split; auto. intros h _ [ | i] v Hi; discriminate Hi.
  - bind_inv H. apply slot_parsed in E as (h & v & Hvs & Hv & ->); auto.
    apply IH in H as (vs & B & L & K & R).
    exists (v :: vs). unfold bank_of in *. cbn in *.
    rewrite B, <- app_assoc, L, K. repeat split; auto; try lia.
    intros h' Hh'. assert (h' = h) as -> by congruence.
    apply replies_cons; [ exact Hv | now apply R ].
Qed.

(** X5.  Over a chain whose replies are never text (the output parser hands
    back parsed values), a completed [generate_quiz] has filled every slot
    from its first reply: for a question count of at least 0 the returned
    list has exactly that many entries, they are the replies of that many
    chain invocations in order, and no retry took place. *)
Theorem generate_quiz_parsed_replies st bank st' :
  (forall h t k s, chain_invoke h t k <> Ok (PStr s)) ->
  0 <= num_questions (self st) ->
  generate_quiz st = Ok (bank, st') ->
  Z.of_nat (List.length bank) = num_questions (self st)
  /\ Z.of_nat (invocations st') =
       Z.of_nat (invocations st) + num_questions (self st)
  /\ forall h, vectorstore (self st) = Some h ->
               replies h (topic (self st)) (invocations st) bank.
Proof.
  intros Hparsed Hn H. apply generate_quiz_Ok in H as [-> H].
  apply slots_parsed in H as (vs & B & L & K & R); auto.
  rewrite length_range in L, K. cbn in B, K, R. rewrite B.
  repeat split; auto; lia.
Qed.

End Slots.

Section Failures.

Import QuizGenerator.

Variable chain_invoke : handle -> pyval -> nat -> result pyval.
Variable json_loads_text : string -> option pyval.

Local Notation "'ask'" := (generate_question_with_vectorstore chain_invoke).
Local Notation "'retry'" := (retry chain_invoke json_loads_text).
Local Notation "'slot'" := (slot chain_invoke json_loads_text).
Local Notation "'slots'" := (slots chain_invoke json_loads_text).
Local Notation "'generate_quiz'" := (generate_quiz chain_invoke json_loads_text).
Local Notation "'raised_by'" := (raised_by chain_invoke).

Lemma accepted_has_question added :
  forall bank, accepted bank added ->
               Forall (fun e => has_question e = true) added.
Proof.
  induction added as [ | q added IH]; cbn; intros bank H; constructor.
  - apply H.
  - eapply IH, H.
Qed.

Lemma grew_has_question m l h st st' :
  grew m l h st st' ->
  Forall (fun e => has_question e = true) (bank_of st) ->
  Forall (fun e => has_question e = true) (bank_of st').
Proof.
  intros (added & B & A & _) Hwf. rewrite B. apply Forall_app.
  split; [ exact Hwf | eapply accepted_has_question, A ].
Qed.

(** Over a bank whose entries all carry a question the scan cannot fail:
    what [validate_question] raises is its own [ValueError], or the
    [TypeError] of a candidate that is no dictionary. *)
Lemma validate_question_Raise g q e :
  Forall (fun e => has_question e = true) (question_bank g) ->
  validate_question g q = Raise e -> e = ValueError \/ e = TypeError.
Proof.
  intros Hwf. destruct q.
  1-3: (cbn; intros H; injection H as <-; auto).
  - unfold validate_question. cbn.
    destruct (Py.str_contains "question" s); cbn; intros H;
      injection H as <-; auto.
  - unfold validate_question. cbn.
    destruct (existsb _ l); cbn; intros H; injection H as <-; auto.
  - rewrite validate_question_dict.
    destruct (Py.dict_get "question" d) as [v | ] eqn:Ev;
      [ | intros H; injection H as <-; auto ].
    destruct (Py.truthy v); [ | intros H; injection H as <-; auto ].
    rewrite (scan_well_formed _ _ v) by (auto; exact Hwf). discriminate.
Qed.

Lemma raised_by_kept st st' e :
  kept st st' -> raised_by (self st') e -> raised_by (self st) e.
Proof.
  intros [(T & _ & V) _] [H | [H | (h & k & Hv & Hk)]];
    [ left | right; left | right; right ]; auto.
  exists h, k. rewrite <- T, <- V. auto.
Qed.

Lemma ask_raised_by st e : ask st = Raise e -> raised_by (self st) e.
Proof.
  intros H. apply ask_Raise in H as [[_ ->] | (h & Hv & Hk)].
  - now left.
  - right; right. eauto.
Qed.

Lemma retry_Raise attempts :
  forall st e,
    Forall (fun e => has_question e = true) (bank_of st) ->
    retry attempts st = Raise e -> raised_by (self st) e.
Proof.
  induction attempts as [ | i rest IH]; cbn [QuizGenerator.retry];
    intros st e Hwf H; [ discriminate H | ].
  destruct (ask st) as [[question_str st1] | e0] eqn:E; cbn [bind] in H.
  - pose proof (ask_kept _ _ _ _ E) as [K _].
    apply ask_Ok in E as [B _].
    apply (raised_by_kept st st1 e K).
    destruct (json_loads json_loads_text question_str) as [question | e1] eqn:EJ.
    + destruct (validate_question (self st1) question) as [[ | ] | e2] eqn:EV;
        cbn in H.
      * discriminate H.
      * injection H as <-. right; now left.
      * injection H as <-.
        apply validate_question_Raise in EV as [-> | ->];
          [ now left | right; now left | ].
        unfold bank_of in B. now rewrite B.
    + assert (He1 : e1 = JSONDecodeError \/ e1 = TypeError).
      { destruct question_str; cbn in EJ; try (injection EJ as <-; auto).
        destruct (json_loads_text s); [ discriminate | ].
        injection EJ as <-. auto. }
      destruct He1 as [-> | ->].
      * apply IH in H; [ exact H | now rewrite B ].
      * injection H as <-. right; now left.
  - injection H as <-. now apply ask_raised_by.
Qed.

Lemma slot_Raise st e :
  Forall (fun e => has_question e = true) (bank_of st) ->
  slot st = Raise e -> raised_by (self st) e.
Proof.
  unfold QuizGenerator.slot. intros Hwf H.
  destruct (ask st) as [[question st1] | e0] eqn:E; cbn [bind] in H.
  - pose proof (ask_kept _ _ _ _ E) as [K _].
    apply ask_Ok in E as [B _].
    apply (raised_by_kept st st1 e K).
    destruct (validate_question (self st1) question) as [[ | ] | e2] eqn:EV;
      cbn in H.
    + discriminate H.
    + apply retry_Raise in H; [ exact H | now rewrite B ].
    + injection H as <-.
      apply validate_question_Raise in EV as [-> | ->];
        [ now left | right; now left | ].
      unfold bank_of in B. now rewrite B.
  - injection H as <-. now apply ask_raised_by.
Qed.

Lemma slots_Raise iterations :
  forall st e,
    Forall (fun e => has_question e = true) (bank_of st) ->
    slots iterations st = Raise e -> raised_by (self st) e.
Proof.
  induction iterations as [ | i rest IH]; cbn [QuizGenerator.slots];
    intros st e Hwf H; [ discriminate H | ].
  destruct (slot st) as [st1 | e0] eqn:E; cbn [bind] in H.
  - pose proof (slot_kept _ _ _ _ E) as [K _].
    apply (raised_by_kept st st1 e K).
    apply IH; [ | exact H ].
    eapply grew_has_question; [ eapply slot_grew, E | exact Hwf ].
  - injection H as <-. now apply slot_Raise.
Qed.


End Failures.

Section Provenance.

Import QuizGenerator.

Variable chain_invoke : handle -> pyval -> nat -> result pyval.
Variable json_loads_text : string -> option pyval.

Local Notation "'ask'" := (generate_question_with_vectorstore chain_invoke).
Local Notation "'retry'" := (retry chain_invoke json_loads_text).
Local Notation "'slot'" := (slot chain_invoke json_loads_text).
Local Notation "'slots'" := (slots chain_invoke json_loads_text).
Local Notation "'generate_quiz'" := (generate_quiz chain_invoke json_loads_text).
Local Notation "'src'" := (sourced chain_invoke json_loads_text).

Lemma sourced_weaken g g' lo hi lo' hi' added :
  src g' lo' hi' added -> same_config g g' ->
  (lo <= lo')%nat -> (hi' <= hi)%nat -> src g lo hi added.
Proof.
  intros H (T & _ & V) Hlo Hhi. unfold sourced in *.
  eapply Forall_impl; [ | exact H ].
  intros e (h & k & Hv & Hk & He). exists h, k.
  rewrite <- T, <- V. repeat split; auto; lia.
Qed.

Lemma sourced_one g h lo k e :
  vectorstore g = Some h ->
  from_chain chain_invoke json_loads_text h (topic g) k e ->
  (lo <= k)%nat -> src g lo (S k) [e].
Proof.
  intros Hv He Hk. constructor; [ | constructor ].
  exists h, k. repeat split; auto.
Qed.

Lemma json_loads_Ok x v :
  json_loads json_loads_text x = Ok v ->
  exists s, x = PStr s /\ json_loads_text s = Some v.
Proof.
  destruct x; try discriminate. cbn.
  destruct (json_loads_text s) as [w | ] eqn:E; [ | discriminate ].
  intros H. injection H as <-. eauto.
Qed.

Lemma retry_sourced attempts :
  forall st st', retry attempts st = Ok st' ->
    exists added,
      bank_of st' = bank_of st ++ added
      /\ src (self st) (invocations st) (invocations st') added.
Proof.
  induction attempts as [ | i rest IH]; cbn [QuizGenerator.retry];
    intros st st' H.
  - injection H as <-. exists []. rewrite app_nil_r.
    split; [ reflexivity | constructor ].
  - bind_inv H. destruct a as [question_str st1].
    apply ask_inv in E as (h & Hvs & Hv & ->).
    destruct (json_loads json_loads_text question_str) as [question | e] eqn:EJ.
    + bind_inv H. destruct a; [ | discriminate H ].
      injection H as <-. exists [question].
      split; [ reflexivity | ].
      apply json_loads_Ok in EJ as (s & -> & Hs). cbn.
      apply (sourced_one _ h); auto. right. eauto.
    + destruct e; try discriminate H.
      pose proof (retry_grew _ _ _ _ _ H) as (_ & _ & _ & _ & I & _).
      apply IH in H as (added & B & S').
      exists added. split; [ exact B | ].
      eapply sourced_weaken; [ exact S' | repeat split | cbn; lia | lia ].
Qed.

Lemma slot_sourced st st' :
  slot st = Ok st' ->
  exists added,
    bank_of st' = bank_of st ++ added
    /\ src (self st) (invocations st) (invocations st') added.
Proof.
  unfold QuizGenerator.slot. intros H.
  bind_inv H. destruct a as [question st1].
  apply ask_inv in E as (h & Hvs & Hv & ->).
  bind_inv H. destruct a.
  - injection H as <-. exists [question].
    split; [ reflexivity | ]. cbn.
    apply (sourced_one _ h); auto. now left.
  - pose proof (retry_grew _ _ _ _ _ H) as (_ & _ & _ & _ & I & _).
    apply retry_sourced in H as (added & B & S').
    exists added. split; [ exact B | ].
    eapply sourced_weaken; [ exact S' | repeat split | cbn; lia | lia ].
Qed.

Lemma slots_sourced iterations :
  forall st st', slots iterations st = Ok st' ->
    exists added,
      bank_of st' = bank_of st ++ added
      /\ src (self st) (invocations st) (invocations st') added.
Proof.
  induction iterations as [ | i rest IH]; cbn [QuizGenerator.slots];
    intros st st' H.
  - injection H as <-. exists []. rewrite app_nil_r.
    split; [ reflexivity | constructor ].
  - bind_inv H.
    pose proof (slot_grew _ _ _ _ E) as (_ & _ & _ & _ & I1 & _).
    pose proof (slot_kept _ _ _ _ E) as [[C _] _].
    pose proof (slots_grew _ _ _ _ _ H) as (_ & _ & _ & _ & I2 & _).
    apply slot_sourced in E as (a1 & B1 & S1).
    apply IH in H as (a2 & B2 & S2).
    exists (a1 ++ a2). rewrite B2, B1, app_assoc.
    split; [ reflexivity | ].
    apply Forall_app. split.
    + eapply sourced_weaken; [ exact S1 | repeat split | lia | lia ].
    + eapply sourced_weaken; [ exact S2 | exact C | lia | lia ].
Qed.

(** X7.  Every entry of the list a completed [generate_quiz] returns was
    obtained from the chain during this call, for the instance's topic and
    over its context source: it is a reply of the chain, or what [json.loads]
    made of a reply that was text.  Nothing else ever enters the bank. *)
Theorem generate_quiz_entries_from_chain st bank st' :
  generate_quiz st = Ok (bank, st') ->
  Forall (fun e => exists h k,
              vectorstore (self st) = Some h
              /\ (invocations st <= k < invocations st')%nat
              /\ from_chain chain_invoke json_loads_text h
                   (topic (self st)) k e) bank.
Proof.
  intros H. apply generate_quiz_Ok in H as [-> H].
  apply slots_sourced in H as (added & B & S'). rewrite B. exact S'.
Qed.

End Provenance.

Section Candidates.

Import QuizGenerator.

Lemma scan_question_only bank q q' :
  Py.getitem q "question" = Py.getitem q' "question" ->
  scan_question_bank bank q = scan_question_bank bank q'.
Proof.
  intros H. induction bank as [ | e bank IH]; cbn [scan_question_bank];
    [ reflexivity | ].
  destruct (Py.getitem e "question"); cbn [bind]; [ | reflexivity ].
  rewrite <- H. destruct (Py.getitem q "question"); cbn [bind];
    [ | reflexivity ].
  now rewrite IH.
Qed.

(** X8.  [validate_question] judges a candidate by its ["question"] item
    alone: two dictionaries with the same item there get the same outcome
    from any bank, whatever their choices, answer and explanation are. *)
Theorem validate_question_question_only g d d' :
  Py.dict_get "question" d = Py.dict_get "question" d' ->
  validate_question g (PDict d) = validate_question g (PDict d').
Proof.
  intros H. rewrite !validate_question_dict, <- H.
  destruct (Py.dict_get "question" d) as [v | ] eqn:E; [ | reflexivity ].
  destruct (Py.truthy v); [ | reflexivity ].
  apply scan_question_only. cbn. now rewrite <- H, E.
Qed.

(** X9.  [validate_question] gives an answer only to a dictionary with a
    non-empty ["question"] item.  A candidate that is no dictionary makes it
    raise [TypeError] or [ValueError] before the bank is looked at, whatever
    the bank holds. *)
Theorem validate_question_not_a_dict g q :
  (forall b, validate_question g q = Ok b ->
             exists d v, q = PDict d /\ Py.dict_get "question" d = Some v
                         /\ Py.truthy v = true)
  /\ ((forall d, q <> PDict d) ->
      validate_question g q = Raise TypeError
      \/ validate_question g q = Raise ValueError).
Proof.
  split.
  - intros b H. apply validate_question_Ok in H as [H _].
    destruct (has_question_inv q H) as (d & v & -> & Hv & Ht & _). eauto.
  - intros Hq. destruct q; auto.
    + unfold validate_question. cbn.
      destruct (Py.str_contains "question" s); cbn; auto.
    + unfold validate_question. cbn.
      destruct (existsb _ l); cbn; auto.
    + now elim (Hq d).
Qed.

End Candidates.

Section GivingUp.

Import QuizGenerator.

Variable chain_invoke : handle -> pyval -> nat -> result pyval.
Variable json_loads_text : string -> option pyval.

Local Notation "'ask'" := (generate_question_with_vectorstore chain_invoke).
Local Notation "'retry'" := (retry chain_invoke json_loads_text).
Local Notation "'slot'" := (slot chain_invoke json_loads_text).
Local Notation "'replies'" := (replies chain_invoke).

Lemma retry_all_undecodable texts :
  forall attempts g h k,
    List.length attempts = List.length texts ->
    vectorstore g = Some h ->
    replies h (topic g) k (map PStr texts) ->
    Forall (fun s => json_loads_text s = None) texts ->
    retry attempts (mkState (set_llm true g) k) =
      Ok (mkState (set_llm true g) (k + List.length texts)).
Proof.
  induction texts as [ | s texts IH]; intros [ | i rest] g h k Hlen Hvs Hrep Hno;
    try discriminate Hlen.
  - cbn. now rewrite Nat.add_0_r.
  - apply Forall_cons_iff in Hno as [Hs Hno].
    cbn [map] in Hrep.
    destruct (replies_tail _ _ _ _ _ _ Hrep) as [Hfirst Hrest].
    rewrite (retry_undecodable_continues chain_invoke json_loads_text
               i rest _ s (mkState (set_llm true g) (S k))).
    + rewrite (IH rest g h (S k)); auto.
      cbn [List.length]. do 2 f_equal. lia.
    + exact (ask_reply chain_invoke (mkState (set_llm true g) k) h (PStr s)
               Hvs Hfirst).
    + exact Hs.
Qed.

(** X10.  A slot is given up without error in one case: the first candidate
    is a duplicate and each of the three replies that follow is text that
    [json.loads] rejects.  The bank is then as before and the chain has been
    invoked four times. *)
Theorem slot_gives_up st h first texts :
  vectorstore (self st) = Some h ->
  chain_invoke h (topic (self st)) (invocations st) = Ok first ->
  validate_question (self st) first = Ok false ->
  List.length texts = 3%nat ->
  replies h (topic (self st)) (S (invocations st)) (map PStr texts) ->
  Forall (fun s => json_loads_text s = None) texts ->
  slot st = Ok (mkState (set_llm true (self st)) (invocations st + 4)).
Proof.
  intros Hvs Hfirst Hdup Hlen Hrep Hno.
  unfold QuizGenerator.slot.
  rewrite (ask_reply chain_invoke st h first Hvs Hfirst). cbn [bind self].
  rewrite (validate_question_bank _ (self st)) by reflexivity.
  rewrite Hdup. cbn [bind].
  assert (Hl : List.length (Py.range 3) = List.length texts)
    by now rewrite Hlen.
  rewrite (retry_all_undecodable texts (Py.range 3) (self st) h
             (S (invocations st)) Hl Hvs Hrep Hno).
  rewrite Hlen. do 2 f_equal. lia.
Qed.

End GivingUp.

Section ChainUse.

Import QuizGenerator.

Variable chain1 chain2 : handle -> pyval -> nat -> result pyval.
Variable json_loads_text : string -> option pyval.

Local Notation "'alike'" := (alike chain1 chain2).

Lemma alike_kept st st' :
  alike st -> kept st st' -> (invocations st <= invocations st')%nat ->
  alike st'.
Proof.
  intros H [(T & _ & V) _] Hk h k Hv Hle. rewrite T.
  apply H; [ congruence | lia ].
Qed.

Lemma ask_alike st :
  alike st ->
  generate_question_with_vectorstore chain1 st
  = generate_question_with_vectorstore chain2 st.
Proof.
  intros H. unfold generate_question_with_vectorstore.
  destruct st as [[t n vs l qb] k].
  destruct l, vs as [h | ]; cbn; try reflexivity;
    (pose proof (H h k eq_refl (le_n _)) as E; cbn in E; now rewrite E).
Qed.

Lemma retry_alike attempts :
  forall st, alike st ->
    retry chain1 json_loads_text attempts st
    = retry chain2 json_loads_text attempts st.
Proof.
  induction attempts as [ | i rest IH]; intros st H; [ reflexivity | ].
  cbn [QuizGenerator.retry]. rewrite (ask_alike st H).
  destruct (generate_question_with_vectorstore chain2 st)
    as [[question_str st1] | e] eqn:E; cbn [bind]; [ | reflexivity ].
  assert (H1 : alike st1).
  { apply (alike_kept st); [ exact H | eapply ask_kept, E | ].
    apply ask_Ok in E as [_ ->]. lia. }
  destruct (json_loads json_loads_text question_str) as [question | e].
  - destruct (validate_question (self st1) question) as [[ | ] | e];
      cbn; reflexivity.
  - destruct e; try reflexivity. now apply IH.
Qed.

Lemma slot_alike st :
  alike st ->
  slot chain1 json_loads_text st = slot chain2 json_loads_text st.
Proof.
  intros H. unfold QuizGenerator.slot. rewrite (ask_alike st H).
  destruct (generate_question_with_vectorstore chain2 st)
    as [[question st1] | e] eqn:E; cbn [bind]; [ | reflexivity ].
  assert (H1 : alike st1).
  { apply (alike_kept st); [ exact H | eapply ask_kept, E | ].
    apply ask_Ok in E as [_ ->]. lia. }
  destruct (validate_question (self st1) question) as [[ | ] | e];
    cbn; try reflexivity.
  now apply retry_alike.
Qed.

Lemma slots_alike iterations :
  forall st, alike st ->
    slots chain1 json_loads_text iterations st
    = slots chain2 json_loads_text iterations st.
Proof.
  induction iterations as [ | i rest IH]; intros st H; [ reflexivity | ].
  cbn [QuizGenerator.slots]. rewrite (slot_alike st H).
  destruct (slot chain2 json_loads_text st) as [st1 | e] eqn:E; cbn [bind];
    [ | reflexivity ].
  apply IH. apply (alike_kept st); [ exact H | eapply slot_kept, E | ].
  apply slot_grew in E as (_ & _ & _ & _ & I & _). lia.
Qed.

(** X11.  [generate_quiz] consults the chain for the instance's topic and
    over its context source only, from the current invocation on: two chains
    that reply alike there give the same outcome, whatever they do for other
    topics, other sources or earlier invocations. *)
Theorem generate_quiz_uses_configured_topic st :
  (forall h k, vectorstore (self st) = Some h ->
               (invocations st <= k)%nat ->
               chain1 h (topic (self st)) k = chain2 h (topic (self st)) k) ->
  generate_quiz chain1 json_loads_text st
  = generate_quiz chain2 json_loads_text st.
Proof.
  intros H. rewrite !generate_quiz_unfold.
  now rewrite (slots_alike _ (with_bank [] st)).
Qed.

End ChainUse.

Section TheScript.

Import QuizGenerator.

Variable chain_invoke : handle -> pyval -> nat -> result pyval.
Variable json_loads_text : string -> option pyval.

Local Notation "'submitted'" := (Script.submitted chain_invoke json_loads_text).

(** X12.  For a question count of 1 to 10, as the slider gives it, the
    script never fails on [question_bank[0]]: when generation completes, the
    question it picks is the first entry of the bank and the chain's first
    reply for the topic typed in, or for ["General Knowledge"] when nothing
    was typed. *)
Theorem submitted_picks_first_reply topic_input questions chroma_creator :
  1 <= questions <= 10 ->
  submitted topic_input questions chroma_creator <> Script.Failed Script.IndexError
  /\ forall question question_bank,
       submitted topic_input questions chroma_creator
       = Script.Done (question, question_bank) ->
       nth_error question_bank 0 = Some question
       /\ chain_invoke chroma_creator
            (if negb (Py.truthy topic_input) then PStr "General Knowledge"
             else topic_input) 0 = Ok question.
Proof.
  intros Hn. unfold Script.submitted.
  rewrite init_within_limit by lia.
  destruct (generate_quiz chain_invoke json_loads_text _)
    as [[bank st'] | e] eqn:E.
  - apply generate_quiz_Ok in E as [-> E].
    apply slots_from_empty_bank in E as (h & v & later & Hvs & Hv & B);
      [ | apply range_nonempty; cbn; lia | reflexivity ].
    cbn in Hvs, Hv. injection Hvs as <-. rewrite B. cbn.
    split; [ discriminate | ].
    intros question question_bank H. injection H as <- <-. auto.
  - split; [ discriminate | ]. intros question question_bank H.
    discriminate H.
Qed.


End TheScript.

(** ** More sample runs *)


Lemma generate_quiz_keeps_config_witness :
  QuizGenerator.generate_quiz Sample.mixed Json.loads_text
    (Sample.fresh_instance "X" 3) = Ok (Sample.mixed_bank, Sample.mixed_final)
  /\ same_config (QuizGenerator.self (Sample.fresh_instance "X" 3))
       (QuizGenerator.self Sample.mixed_final).
Proof.
  assert (H : QuizGenerator.generate_quiz Sample.mixed Json.loads_text
                (Sample.fresh_instance "X" 3)
              = Ok (Sample.mixed_bank, Sample.mixed_final))
    by (vm_compute; reflexivity).
  split; [ exact H | ].
  exact (proj1 (generate_quiz_keeps_config _ _ _ _ _ H)).
Defined.

Lemma generate_quiz_first_slot_witness :
  1 <= 3
  /\ QuizGenerator.generate_quiz Sample.mixed Json.loads_text
       (Sample.fresh_instance "X" 3) = Ok (Sample.mixed_bank, Sample.mixed_final)
  /\ exists h first,
       Some 0%nat = Some h
       /\ Sample.mixed h (PStr "X") 0 = Ok first
       /\ nth_error Sample.mixed_bank 0 = Some first.
Proof.
  assert (Hn : 1 <= 3) by lia.
  assert (H : QuizGenerator.generate_quiz Sample.mixed Json.loads_text
                (Sample.fresh_instance "X" 3)
              = Ok (Sample.mixed_bank, Sample.mixed_final))
    by (vm_compute; reflexivity).
  split; [ exact Hn | split; [ exact H | ] ].
  exact (generate_quiz_first_slot Sample.mixed Json.loads_text
           (Sample.fresh_instance "X" 3) _ _ Hn H).
Defined.

Lemma two_distinct_accepted :
  accepted [] [Schema.dump Sample.paris; Schema.dump Sample.madrid].
Proof.
  cbn. repeat split; try constructor; try constructor.
  exists (PStr "What is the capital of France?"),
         (PStr "What is the capital of Spain?").
  repeat split.
Defined.

Lemma two_distinct_replies :
  replies Runs.two_distinct 0%nat (PStr "X") 0
    [Schema.dump Sample.paris; Schema.dump Sample.madrid].
Proof.
  intros [ | [ | i]] v Hi; cbn in Hi.
  - injection Hi as <-. reflexivity.
  - injection Hi as <-. reflexivity.
  - destruct i; discriminate Hi.
Defined.

Lemma two_distinct_parsed :
  forall h t k s, Runs.two_distinct h t k <> Ok (PStr s).
Proof.
  intros h t [ | [ | k]] s; discriminate.
Defined.

Lemma generate_quiz_distinct_replies_witness :
  accepted [] [Schema.dump Sample.paris; Schema.dump Sample.madrid]
  /\ replies Runs.two_distinct 0%nat (PStr "X") 0
       [Schema.dump Sample.paris; Schema.dump Sample.madrid]
  /\ exists st',
       QuizGenerator.generate_quiz Runs.two_distinct Json.loads_text
         (Sample.fresh_instance "X" 2)
       = Ok ([Schema.dump Sample.paris; Schema.dump Sample.madrid], st')
       /\ QuizGenerator.invocations st' = 2%nat.
Proof.
  split; [ exact two_distinct_accepted | ].
  split; [ exact two_distinct_replies | ].
  exact (generate_quiz_distinct_replies Runs.two_distinct Json.loads_text
           (Sample.fresh_instance "X" 2) 0%nat
           [Schema.dump Sample.paris; Schema.dump Sample.madrid]
           eq_refl eq_refl two_distinct_accepted two_distinct_replies).
Defined.

Lemma generate_quiz_parsed_replies_witness :
  (forall h t k s, Runs.two_distinct h t k <> Ok (PStr s))
  /\ 0 <= 2
  /\ QuizGenerator.generate_quiz Runs.two_distinct Json.loads_text
       (Sample.fresh_instance "X" 2)
     = Ok ([Schema.dump Sample.paris; Schema.dump Sample.madrid],
           QuizGenerator.mkState
             (QuizGenerator.mk (PStr "X") 2 (Some 0%nat) true
                [Schema.dump Sample.paris; Schema.dump Sample.madrid]) 2)
  /\ Z.of_nat (List.length
                 [Schema.dump Sample.paris; Schema.dump Sample.madrid]) = 2.
Proof.
  assert (Hn : 0 <= 2) by lia.
  assert (H : QuizGenerator.generate_quiz Runs.two_distinct Json.loads_text
                (Sample.fresh_instance "X" 2)
              = Ok ([Schema.dump Sample.paris; Schema.dump Sample.madrid],
                    QuizGenerator.mkState
                      (QuizGenerator.mk (PStr "X") 2 (Some 0%nat) true
                         [Schema.dump Sample.paris; Schema.dump Sample.madrid])
                      2))
    by (vm_compute; reflexivity).
  split; [ exact two_distinct_parsed | split; [ exact Hn | ] ].
  split; [ exact H | ].
  exact (proj1 (generate_quiz_parsed_replies Runs.two_distinct Json.loads_text
                  (Sample.fresh_instance "X" 2) _ _ two_distinct_parsed Hn H)).
Defined.


Lemma generate_quiz_entries_from_chain_witness :
  QuizGenerator.generate_quiz Sample.mixed Json.loads_text
    (Sample.fresh_instance "X" 3) = Ok (Sample.mixed_bank, Sample.mixed_final)
  /\ Forall (fun e => exists h k,
                 Some 0%nat = Some h
                 /\ (0 <= k < 8)%nat
                 /\ from_chain Sample.mixed Json.loads_text h (PStr "X") k e)
       Sample.mixed_bank.
Proof.
  assert (H : QuizGenerator.generate_quiz Sample.mixed Json.loads_text
                (Sample.fresh_instance "X" 3)
              = Ok (Sample.mixed_bank, Sample.mixed_final))
    by (vm_compute; reflexivity).
  split; [ exact H | ].
  exact (generate_quiz_entries_from_chain Sample.mixed Json.loads_text
           (Sample.fresh_instance "X" 3) _ _ H).
Defined.

Lemma validate_question_question_only_witness :
  Py.dict_get "question" (Schema.items Sample.paris)
  = Py.dict_get "question" Runs.paris_again
  /\ QuizGenerator.validate_question Sample.holding_paris
       (PDict (Schema.items Sample.paris))
     = QuizGenerator.validate_question Sample.holding_paris
         (PDict Runs.paris_again).
Proof.
  split; [ reflexivity | ].
  exact (validate_question_question_only Sample.holding_paris
           (Schema.items Sample.paris) Runs.paris_again eq_refl).
Defined.

Lemma validate_question_not_a_dict_witness :
  (forall d, PNone <> PDict d)
  /\ (QuizGenerator.validate_question Sample.holding_paris PNone
      = Raise TypeError
      \/ QuizGenerator.validate_question Sample.holding_paris PNone
         = Raise ValueError)
  /\ QuizGenerator.validate_question Sample.holding_paris
       (Schema.dump Sample.madrid) = Ok true
  /\ exists d v, Schema.dump Sample.madrid = PDict d
                 /\ Py.dict_get "question" d = Some v
                 /\ Py.truthy v = true.
Proof.
  assert (H : forall d, PNone <> PDict d) by (intros d; discriminate).
  assert (A : QuizGenerator.validate_question Sample.holding_paris
                (Schema.dump Sample.madrid) = Ok true) by reflexivity.
  split; [ exact H | split; [ | split; [ exact A | ] ] ].
  - exact (proj2 (validate_question_not_a_dict Sample.holding_paris PNone) H).
  - exact (proj1 (validate_question_not_a_dict Sample.holding_paris
                    (Schema.dump Sample.madrid)) true A).
Defined.

Lemma gives_up_replies :
  replies Runs.gives_up 0%nat (PStr "X") 2
    (map PStr ["Sure! Here is your question:";
               "Sure! Here is your question:";
               "Sure! Here is your question:"]).
Proof.
  intros [ | [ | [ | i]]] v Hi; cbn in Hi;
    try (injection Hi as <-; reflexivity).
  destruct i; discriminate Hi.
Defined.

Lemma gives_up_undecodable :
  Forall (fun s => Json.loads_text s = None)
    ["Sure! Here is your question:"; "Sure! Here is your question:";
     "Sure! Here is your question:"].
Proof.
  repeat constructor.
Defined.

Lemma slot_gives_up_witness :
  QuizGenerator.validate_question Sample.holding_paris
    (Schema.dump Sample.paris) = Ok false
  /\ QuizGenerator.slot Runs.gives_up Json.loads_text
       (QuizGenerator.mkState Sample.holding_paris 1)
     = Ok (QuizGenerator.mkState Sample.holding_paris 5).
Proof.
  split; [ reflexivity | ].
  exact (slot_gives_up Runs.gives_up Json.loads_text
           (QuizGenerator.mkState Sample.holding_paris 1) 0%nat
           (Schema.dump Sample.paris)
           ["Sure! Here is your question:"; "Sure! Here is your question:";
            "Sure! Here is your question:"]
           eq_refl eq_refl eq_refl eq_refl gives_up_replies
           gives_up_undecodable).
Defined.

Lemma mixed_alike :
  forall h k,
    QuizGenerator.vectorstore
      (QuizGenerator.self (Sample.fresh_instance "X" 3)) = Some h ->
    (QuizGenerator.invocations (Sample.fresh_instance "X" 3) <= k)%nat ->
    Sample.mixed h
      (QuizGenerator.topic (QuizGenerator.self (Sample.fresh_instance "X" 3))) k
    = Runs.mixed_for_x h
        (QuizGenerator.topic
           (QuizGenerator.self (Sample.fresh_instance "X" 3))) k.
Proof.
  intros h k Hh _. cbn in Hh. injection Hh as <-. reflexivity.
Defined.

Lemma generate_quiz_uses_configured_topic_witness :
  QuizGenerator.generate_quiz Sample.mixed Json.loads_text
    (Sample.fresh_instance "X" 3)
  = QuizGenerator.generate_quiz Runs.mixed_for_x Json.loads_text
      (Sample.fresh_instance "X" 3).
Proof.
  exact (generate_quiz_uses_configured_topic Sample.mixed Runs.mixed_for_x
           Json.loads_text (Sample.fresh_instance "X" 3) mixed_alike).
Defined.

Lemma submitted_picks_first_reply_witness :
  1 <= 3 <= 10
  /\ Script.submitted Sample.mixed Json.loads_text (PStr EmptyString) 3 0%nat
     = Script.Done (Schema.dump Sample.paris, Sample.mixed_bank)
  /\ nth_error Sample.mixed_bank 0 = Some (Schema.dump Sample.paris)
  /\ Sample.mixed 0%nat (PStr "General Knowledge") 0
     = Ok (Schema.dump Sample.paris).
Proof.
  assert (Hn : 1 <= 3 <= 10) by lia.
  assert (H : Script.submitted Sample.mixed Json.loads_text
                (PStr EmptyString) 3 0%nat
              = Script.Done (Schema.dump Sample.paris, Sample.mixed_bank))
    by (vm_compute; reflexivity).
  split; [ exact Hn | split; [ exact H | ] ].
  exact (proj2 (submitted_picks_first_reply Sample.mixed Json.loads_text
                  (PStr EmptyString) 3 0%nat Hn) _ _ H).
Defined.

